(** * Sandboxed task validator and runner: a shallow embedding

    The development embeds [validate_code] (validator.py) and
    [execute_task] (runner.py).  The Python parser ([ast.parse]), the
    interpreter ([exec], calling a function) and the host [builtins]
    module are collaborators outside the two files; they appear as
    section variables. *)

From Stdlib Require Import String Ascii List Bool Arith Lia Permutation.
From stdpp Require Import base strings gmap list.
Import ListNotations.
Local Open Scope string_scope.
Set Warnings "-register-all".
Set Default Proof Using "Type".

(** ** Exceptions and results *)

(** A raised exception: its class, the names of the classes it inherits
    from (its MRO without the class itself), the text of [str(e)] and the
    rendered call sites that [traceback] prints. *)
Record exn : Type := MkExn {
  exn_class : string;
  exn_bases : list string;
  exn_text : string;
  exn_frames : list string
}.

(** [isinstance(e, C)] for an exception class named [C]. *)
Definition isinstance_exn (e : exn) (c : string) : bool :=
  existsb (String.eqb c) (exn_class e :: exn_bases e).

(** A Python computation either returns or raises. *)
Inductive result (A : Type) : Type :=
| Return (a : A)
| Raise (e : exn).
Arguments Return {A} a.
Arguments Raise {A} e.

Definition bind {A B} (m : result A) (k : A -> result B) : result B :=
  match m with
  | Return a => k a
  | Raise e => Raise e
  end.

Notation "x <- m ;; k" := (bind m (fun x => k))
  (at level 100, m at next level, right associativity).

(** [IndexError] as raised by [l[i]] out of range. *)
Definition IndexError : exn :=
  MkExn "IndexError" ["LookupError"; "Exception"; "BaseException"; "object"]
        "list index out of range" [].

(** [l[i]] for a non-negative index. *)
Definition subscript {A} (l : list A) (i : nat) : result A :=
  match nth_error l i with
  | Some a => Return a
  | None => Raise IndexError
  end.

(** ** The syntax tree

    Classes of the [ast] module.  The classes the validator inspects have
    a constructor of their own with the fields of the class in the order
    of [_fields]; every other class is [Other], which keeps the class name
    and the child nodes in field order.  [ctx] fields are nodes too
    ([Load], [Store], [Del]). *)
Module Ast.

Record alias : Type := Alias { alias_name : string; alias_asname : option string }.

Inductive node : Type :=
| Import (names : list alias)
| ImportFrom (module : option string) (names : list alias) (level : nat)
| FunctionDef (name : string) (args : arguments) (body : list node)
              (decorator_list : list node) (returns : option node)
              (type_params : list node)
| AsyncFunctionDef (name : string) (args : arguments) (body : list node)
              (decorator_list : list node) (returns : option node)
              (type_params : list node)
| Lambda (args : arguments) (body : node)
| Call (func : node) (args : list node) (keywords : list node)
| Name (id : string) (ctx : node)
| Attribute (value : node) (attr : string) (ctx : node)
| Other (cls : string) (children : list node)
with arguments : Type :=
| Arguments (posonlyargs : list arg) (args : list arg) (vararg : option arg)
            (kwonlyargs : list arg) (kw_defaults : list (option node))
            (kwarg : option arg) (defaults : list node)
with arg : Type :=
| Arg (arg_name : string) (annotation : option node).

(** The tree [ast.parse] returns: [type_ignores] is empty unless type
    comments are requested, which the validator does not do. *)
Record Module : Type := MkModule { mod_body : list node }.

(** Any object of class [ast.AST]. *)
Inductive obj : Type :=
| OModule (m : Module)
| ONode (n : node)
| OArguments (a : arguments)
| OArg (a : arg)
| OAlias (a : alias).

(** [type(node).__name__] *)
Definition type_name (n : node) : string :=
  match n with
  | Import _ => "Import"
  | ImportFrom _ _ _ => "ImportFrom"
  | FunctionDef _ _ _ _ _ _ => "FunctionDef"
  | AsyncFunctionDef _ _ _ _ _ _ => "AsyncFunctionDef"
  | Lambda _ _ => "Lambda"
  | Call _ _ _ => "Call"
  | Name _ _ => "Name"
  | Attribute _ _ _ => "Attribute"
  | Other cls _ => cls
  end.

Definition opt_list {A} (o : option A) : list A :=
  match o with Some a => [a] | None => [] end.

(** The entries of a list field that are nodes ([None] entries of
    [kw_defaults] are skipped by [iter_child_nodes]). *)
Definition somes {A} (l : list (option A)) : list A := flat_map opt_list l.

Definition arguments_args (a : arguments) : list arg :=
  match a with Arguments _ args _ _ _ _ _ => args end.

Definition arg_arg (a : arg) : string :=
  match a with Arg s _ => s end.

(** [ast.iter_child_nodes]: the fields in [_fields] order, keeping those
    that are nodes and the nodes of those that are lists. *)
Definition node_children (n : node) : list obj :=
  match n with
  | Import names => map OAlias names
  | ImportFrom _ names _ => map OAlias names
  | FunctionDef _ a body decos ret tps
  | AsyncFunctionDef _ a body decos ret tps =>
      OArguments a :: map ONode body ++ map ONode decos
        ++ map ONode (opt_list ret) ++ map ONode tps
  | Lambda a body => [OArguments a; ONode body]
  | Call func args keywords => ONode func :: map ONode args ++ map ONode keywords
  | Name _ ctx => [ONode ctx]
  | Attribute value _ ctx => [ONode value; ONode ctx]
  | Other _ children => map ONode children
  end.

Definition arguments_children (a : arguments) : list obj :=
  match a with
  | Arguments po ar va ko kd kw de =>
      map OArg po ++ map OArg ar ++ map OArg (opt_list va) ++ map OArg ko
        ++ map ONode (somes kd) ++ map OArg (opt_list kw) ++ map ONode de
  end.

Definition arg_children (a : arg) : list obj :=
  match a with Arg _ ann => map ONode (opt_list ann) end.

Definition iter_child_nodes (o : obj) : list obj :=
  match o with
  | OModule m => map ONode (mod_body m)
  | ONode n => node_children n
  | OArguments a => arguments_children a
  | OArg a => arg_children a
  | OAlias _ => []
  end.

(** Number of objects in a tree. *)
Fixpoint node_size (n : node) : nat :=
  match n with
  | Import names => S (length names)
  | ImportFrom _ names _ => S (length names)
  | FunctionDef _ a body decos ret tps
  | AsyncFunctionDef _ a body decos ret tps =>
      S (arguments_size a + list_sum (map node_size body)
         + list_sum (map node_size decos)
         + match ret with Some r => node_size r | None => 0 end
         + list_sum (map node_size tps))
  | Lambda a body => S (arguments_size a + node_size body)
  | Call func args keywords =>
      S (node_size func + list_sum (map node_size args)
         + list_sum (map node_size keywords))
  | Name _ ctx => S (node_size ctx)
  | Attribute value _ ctx => S (node_size value + node_size ctx)
  | Other _ children => S (list_sum (map node_size children))
  end
with arguments_size (a : arguments) : nat :=
  match a with
  | Arguments po ar va ko kd kw de =>
      S (list_sum (map arg_size po) + list_sum (map arg_size ar)
         + match va with Some x => arg_size x | None => 0 end
         + list_sum (map arg_size ko)
         + list_sum (map (fun o => match o with Some x => node_size x | None => 0 end) kd)
         + match kw with Some x => arg_size x | None => 0 end
         + list_sum (map node_size de))
  end
with arg_size (a : arg) : nat :=
  match a with
  | Arg _ ann => S (match ann with Some x => node_size x | None => 0 end)
  end.

Definition size (o : obj) : nat :=
  match o with
  | OModule m => S (list_sum (map node_size (mod_body m)))
  | ONode n => node_size n
  | OArguments a => arguments_size a
  | OArg a => arg_size a
  | OAlias _ => 1
  end.

End Ast.

(** ** validator.py *)
Module Validator.
Import Ast.
Local Open Scope list_scope.

(** Whitelist of modules that may be imported. *)
Definition ALLOWED_IMPORTS : gset string :=
  list_to_set ["math"; "json"; "datetime"; "re"; "random"; "collections";
               "itertools"; "functools"].

(** Built-in functions that must not be called. *)
Definition FORBIDDEN_CALLS : gset string :=
  list_to_set ["eval"; "exec"; "compile"; "open"; "input"; "__import__";
               "globals"; "locals"; "super"; "help"; "exit"; "quit"].

(** Attribute names that must not be called. *)
Definition FORBIDDEN_ATTRS : gset string :=
  list_to_set ["system"; "popen"; "spawn"; "fork"; "kill"].

(** [name in S] *)
Definition mem (x : string) (S : gset string) : bool := bool_decide (x ∈ S).

(** [s.split(sep)] for a one-character separator. *)
Fixpoint split (sep : ascii) (s : string) : list string :=
  match s with
  | EmptyString => [EmptyString]
  | String c rest =>
      if Ascii.eqb c sep then EmptyString :: split sep rest
      else match split sep rest with
           | h :: t => String c h :: t
           | [] => [String c EmptyString]
           end
  end.

(** One entry of [errors].  Each constructor is one of the message
    templates of [validate_code], with the values it interpolates;
    [message] renders the text. *)
Inductive violation : Type :=
| SyntaxErrorMsg (text : string)
| ParseErrorMsg (text : string)
| ForbiddenImport (module_name : string)
| RunSignature
| ForbiddenFunction (name : string)
| ForbiddenStatement (type_name : string)
| MissingRun
| ForbiddenCall (id : string)
| ForbiddenAttribute (attr : string).

(** The kinds of violation. [KParseError] is the report of a parser
    failure that is not a syntax error. *)
Inductive kind : Type :=
| KSyntaxError | KParseError | KStructuralViolation | KMissingEntryPoint
| KForbiddenImport | KForbiddenCall | KForbiddenAttribute.

Definition kind_of (v : violation) : kind :=
  match v with
  | SyntaxErrorMsg _ => KSyntaxError
  | ParseErrorMsg _ => KParseError
  | ForbiddenImport _ => KForbiddenImport
  | RunSignature | ForbiddenFunction _ | ForbiddenStatement _ => KStructuralViolation
  | MissingRun => KMissingEntryPoint
  | ForbiddenCall _ => KForbiddenCall
  | ForbiddenAttribute _ => KForbiddenAttribute
  end.

Record report : Type := MkReport { valid : bool; errors : list violation }.

(** [for x in l: body], where the body may raise. *)
Fixpoint for_each {A S : Type} (l : list A) (body : A -> S -> result S) (s : S)
  : result S :=
  match l with
  | [] => Return s
  | x :: rest => s' <- body x s ;; for_each rest body s'
  end.

(** Body of the loop over [node.names] (lines 70-73). *)
Definition import_step (a : alias) (errors : list violation)
  : result (list violation) :=
  module_name <- subscript (split "." (alias_name a)) 0 ;;
  if negb (mem module_name ALLOWED_IMPORTS)
  then Return (errors ++ [ForbiddenImport module_name])
  else Return errors.

(** [len(args) != 1 or args[0] != 'params'], with the short circuit. *)
Definition run_signature_mismatch (args : list string) : result bool :=
  if negb (Nat.eqb (length args) 1) then Return true
  else a0 <- subscript args 0 ;; Return (negb (String.eqb a0 "params")).

(** Body of the loop over [tree.body] (lines 67-87); the state is
    [errors] and [has_run_func]. *)
Definition top_level_step (n : node) (st : list violation * bool)
  : result (list violation * bool) :=
  let '(errors, has_run_func) := st in
  match n with
  | Import names | ImportFrom _ names _ =>
      errors' <- for_each names import_step errors ;;
      Return (errors', has_run_func)
  | FunctionDef name a _ _ _ _ =>
      if String.eqb name "run" then
        let args := map arg_arg (arguments_args a) in
        bad <- run_signature_mismatch args ;;
        Return (if bad then errors ++ [RunSignature] else errors, true)
      else Return (errors ++ [ForbiddenFunction name], has_run_func)
  | _ => Return (errors ++ [ForbiddenStatement (type_name n)], has_run_func)
  end.

(** The structure check (lines 63-91), started with the given [errors]. *)
Definition structural_pass (tree : Module) (errors : list violation)
  : result (list violation) :=
  st <- for_each (mod_body tree) top_level_step (errors, false) ;;
  let '(errors, has_run_func) := st in
  if negb has_run_func then Return (errors ++ [MissingRun]) else Return errors.

(** [ast.walk]: a queue holding the root; each turn pops the left end,
    pushes the children of the popped object at the right end and yields
    the object.  [fuel] bounds the number of turns. *)
Fixpoint walk_loop (fuel : nat) (todo : list obj) : list obj :=
  match fuel with
  | O => []
  | S fuel' =>
      match todo with
      | [] => []
      | n :: rest => n :: walk_loop fuel' (rest ++ iter_child_nodes n)
      end
  end.

Definition walk (tree : obj) : list obj := walk_loop (size tree) [tree].

(** Body of the loop over [ast.walk(tree)] (lines 97-104). *)
Definition deep_step (errors : list violation) (o : obj) : list violation :=
  match o with
  | ONode (Call (Name id _) _ _) =>
      if mem id FORBIDDEN_CALLS then errors ++ [ForbiddenCall id] else errors
  | ONode (Call (Attribute _ attr _) _ _) =>
      if mem attr FORBIDDEN_ATTRS then errors ++ [ForbiddenAttribute attr]
      else errors
  | _ => errors
  end.

(** The deep scan (lines 93-104), started with the given [errors]. *)
Definition deep_pass (tree : Module) (errors : list violation)
  : list violation :=
  fold_left deep_step (walk (OModule tree)) errors.

Section WithParser.

(** [ast.parse]: returns the tree or raises. *)
Variable parse : string -> result Module.

Definition validate_code (code_str : string) : result report :=
  match parse code_str with
  | Raise e =>
      if isinstance_exn e "SyntaxError" then
        Return (MkReport false [SyntaxErrorMsg (exn_text e)])
      else if isinstance_exn e "Exception" then
        Return (MkReport false [ParseErrorMsg (exn_text e)])
      else Raise e
  | Return tree =>
      errors <- structural_pass tree [] ;;
      let errors := deep_pass tree errors in
      Return (MkReport (Nat.eqb (length errors) 0) errors)
  end.

End WithParser.

(** The text of an entry of [errors].  [listing] is [list(ALLOWED_IMPORTS)],
    whose order is the iteration order of the set in the running process. *)
Section Messages.

Variable listing : list string.

Definition quote (s : string) : string := "'" +:+ s +:+ "'".

Definition repr_list (l : list string) : string :=
  "[" +:+ String.concat ", " (map quote l) +:+ "]".

Definition message (v : violation) : string :=
  match v with
  | SyntaxErrorMsg text => "Syntax Error: " +:+ text
  | ParseErrorMsg text => "Parse Error: " +:+ text
  | ForbiddenImport module_name =>
      "Forbidden import: " +:+ quote module_name +:+ ". Allowed: " +:+ repr_list listing
  | RunSignature =>
      "Function 'run' must accept exactly one argument named 'params'"
  | ForbiddenFunction name =>
      "Forbidden top-level function: " +:+ quote name
        +:+ ". Only 'run(params)' is allowed."
  | ForbiddenStatement type_name =>
      "Forbidden top-level statement type: " +:+ type_name
        +:+ ". Only imports and 'def run(params):' allowed."
  | MissingRun => "Missing required function: 'def run(params):'"
  | ForbiddenCall id => "Forbidden function call: " +:+ quote id
  | ForbiddenAttribute attr => "Forbidden attribute access: " +:+ quote attr
  end.

End Messages.

End Validator.

(** ** runner.py *)
Module Runner.
Local Open Scope list_scope.

(** Names of the built-ins copied into the sandbox. *)
Definition SAFE_BUILTINS : gset string :=
  list_to_set
    ["abs"; "all"; "any"; "ascii"; "bin"; "bool"; "bytearray"; "bytes";
     "chr"; "complex"; "dict"; "divmod"; "enumerate"; "filter"; "float";
     "format"; "frozenset"; "getattr"; "hasattr"; "hash"; "hex"; "id";
     "int"; "isinstance"; "issubclass"; "iter"; "len"; "list"; "map";
     "max"; "min"; "next"; "object"; "oct"; "ord"; "pow"; "print";
     "range"; "repr"; "reversed"; "round"; "set"; "slice"; "sorted";
     "str"; "sum"; "tuple"; "type"; "zip"; "__import__";
     "Exception"; "BaseException"; "ValueError"; "TypeError"; "KeyError";
     "IndexError"; "AttributeError"; "RuntimeError"; "ImportError";
     "NameError"; "SyntaxError"; "StopIteration"; "ArithmeticError";
     "AssertionError"; "BufferError"; "EOFError"; "FloatingPointError";
     "GeneratorExit"; "KeyboardInterrupt"; "LookupError"; "MemoryError";
     "NotImplementedError"; "OSError"; "OverflowError"; "ReferenceError";
     "SystemError"; "SystemExit"; "UnboundLocalError"; "UnicodeError";
     "ZeroDivisionError";
     "super"; "property"; "classmethod"; "staticmethod"].

Definition newline : string := String (ascii_of_nat 10) EmptyString.

(** [traceback.format_exc()] for the exception being handled: the header,
    the call sites, then the class and, when it is not empty, [str(e)]. *)
Definition format_exc (e : exn) : string :=
  "Traceback (most recent call last):" +:+ newline
    +:+ String.concat EmptyString (exn_frames e)
    +:+ exn_class e
    +:+ (if String.eqb (exn_text e) EmptyString then EmptyString
         else ": " +:+ exn_text e)
    +:+ newline.

(** The two streams that [redirect_stdout] and [redirect_stderr] divert. *)
Inductive stream : Type := Stdout | Stderr.

(** What running a piece of Python does, as far as [execute_task] can
    tell: the texts it writes to [sys.stdout] and [sys.stderr], in order,
    and how it ends. *)
Record behaviour (A : Type) : Type := MkBehaviour {
  writes : list (stream * string);
  ending : result A
}.
Arguments MkBehaviour {A} writes ending.
Arguments writes {A} b.
Arguments ending {A} b.

Section WithHost.

(** Python objects, with [None]. *)
Variable V : Type.
Variable PyNone : V.

(** The attributes of the host's [builtins] module. *)
Variable builtins : gmap string V.

(** A value stored in the sandbox dictionary: the dictionary of
    built-ins or any other object. *)
Inductive entry : Type :=
| BuiltinsDict (d : gmap string V)
| Obj (v : V).

(** [exec(code_str, sandbox)]: ends with the sandbox as the code left it. *)
Variable py_exec : string -> gmap string entry -> behaviour (gmap string entry).

(** [callable(f)] and [f(x)]. *)
Variable py_callable : V -> bool.
Variable py_call : V -> V -> behaviour V.

(** The rendered call site of line 112, where [execute_task] raises. *)
Variable raise_site : list string.

(** Lines 84-87. *)
Definition safe_builtins_dict : gmap string V :=
  fold_left
    (fun d name =>
       match builtins !! name with
       | Some impl => <[name := impl]> d
       | None => d
       end)
    (elements SAFE_BUILTINS) ∅.

(** Lines 90-93. *)
Definition sandbox (params : V) : gmap string entry :=
  <["params" := Obj params]> (<["__builtins__" := BuiltinsDict safe_builtins_dict]> ∅).

(** How code evaluated with the globals [ns] resolves a global name: the
    globals first, then the dictionary bound to [__builtins__]. *)
Definition resolve (ns : gmap string entry) (name : string) : option entry :=
  match ns !! name with
  | Some e => Some e
  | None =>
      match ns !! "__builtins__" with
      | Some (BuiltinsDict d) => Obj <$> d !! name
      | _ => None
      end
  end.

(** The local variables of [execute_task] that change after line 93. *)
Record locals : Type := MkLocals {
  stdout_capture : string;
  stderr_capture : string;
  result_data : V;
  success : bool;
  error_msg : option string
}.

(** Statements of [execute_task]: they update the locals and return or
    raise. *)
Definition M (A : Type) : Type := locals -> locals * result A.

Definition ret {A} (a : A) : M A := fun st => (st, Return a).
Definition raise {A} (e : exn) : M A := fun st => (st, Raise e).
Definition mbind {A B} (m : M A) (k : A -> M B) : M B :=
  fun st => match m st with
            | (st', Return a) => k a st'
            | (st', Raise e) => (st', Raise e)
            end.

Notation "x <-- m ;;; k" := (mbind m (fun x => k))
  (at level 100, m at next level, right associativity).

(** A write to a redirected stream lands in its buffer. *)
Definition write (w : stream * string) (st : locals) : locals :=
  match w with
  | (Stdout, text) =>
      MkLocals (stdout_capture st +:+ text) (stderr_capture st)
               (result_data st) (success st) (error_msg st)
  | (Stderr, text) =>
      MkLocals (stdout_capture st) (stderr_capture st +:+ text)
               (result_data st) (success st) (error_msg st)
  end.

(** Running Python inside the [with] block. *)
Definition perform {A} (b : behaviour A) : M A :=
  fun st => (fold_left (fun s w => write w s) (writes b) st, ending b).

Definition set_result_data (v : V) : M unit :=
  fun st => (MkLocals (stdout_capture st) (stderr_capture st) v
                      (success st) (error_msg st), Return tt).
Definition set_success (b : bool) : M unit :=
  fun st => (MkLocals (stdout_capture st) (stderr_capture st)
                      (result_data st) b (error_msg st), Return tt).
Definition set_error_msg (s : option string) : M unit :=
  fun st => (MkLocals (stdout_capture st) (stderr_capture st)
                      (result_data st) (success st) s, Return tt).

(** [try: body except Exception: handler] *)
Definition try_except_Exception (body : M unit) (handler : exn -> M unit)
  : M unit :=
  fun st => match body st with
            | (st', Raise e) =>
                if isinstance_exn e "Exception" then handler e st'
                else (st', Raise e)
            | r => r
            end.

Definition missing_run : exn :=
  MkExn "ValueError" ["Exception"; "BaseException"; "object"]
        "Code must define a 'run(params)' function." raise_site.

(** ['run' not in sandbox or not callable(sandbox['run'])] *)
Definition run_missing (ns : gmap string entry) : bool :=
  match ns !! "run" with
  | None => true
  | Some (Obj f) => negb (py_callable f)
  | Some (BuiltinsDict _) => true
  end.

(** [sandbox['run'](params)]: the lookup, then the call. *)
Definition call_run (ns : gmap string entry) (params : V) : M V :=
  match ns !! "run" with
  | None =>
      raise (MkExn "KeyError" ["LookupError"; "Exception"; "BaseException"; "object"]
                   "'run'" raise_site)
  | Some (BuiltinsDict _) =>
      raise (MkExn "TypeError" ["Exception"; "BaseException"; "object"]
                   "'dict' object is not callable" raise_site)
  | Some (Obj f) => perform (py_call f params)
  end.

(** Lines 105-116. *)
Definition with_block (code_str : string) (params : V) : M unit :=
  ns <-- perform (py_exec code_str (sandbox params)) ;;;
  if run_missing ns then raise missing_run
  else
    r <-- call_run ns params ;;;
    _ <-- set_result_data r ;;;
    set_success true.

(** Lines 118-121. *)
Definition handler (e : exn) : M unit :=
  _ <-- set_error_msg (Some (format_exc e)) ;;;
  set_success false.

(** The dictionary [execute_task] returns. *)
Record execution_result : Type := MkResult {
  r_success : bool;
  r_data : V;
  r_error : option string;
  r_stdout : string;
  r_stderr : string
}.

Definition execute_task (code_str : string) (params : V)
  : result execution_result :=
  let st0 := MkLocals EmptyString EmptyString PyNone false None in
  match try_except_Exception (with_block code_str params) handler st0 with
  | (st, Return _) =>
      Return (MkResult (success st) (result_data st) (error_msg st)
                       (stdout_capture st) (stderr_capture st))
  | (_, Raise e) => Raise e
  end.

(** *** Vocabulary of the statements about [execute_task] *)

(** The text written to one stream by a sequence of writes. *)
Fixpoint written (s : stream) (ws : list (stream * string)) : string :=
  match ws with
  | [] => EmptyString
  | (Stdout, text) :: rest =>
      match s with
      | Stdout => text +:+ written s rest
      | Stderr => written s rest
      end
  | (Stderr, text) :: rest =>
      match s with
      | Stdout => written s rest
      | Stderr => text +:+ written s rest
      end
  end.

(** How evaluating the script and calling its [run] ends: with the value
    [run] returns, or with the exception raised while loading, by the
    entry-point check, or while [run] runs. *)
Definition outcome (code_str : string) (params : V) : result V :=
  match ending (py_exec code_str (sandbox params)) with
  | Raise e => Raise e
  | Return ns =>
      if run_missing ns then Raise missing_run
      else match ns !! "run" with
           | Some (Obj f) => ending (py_call f params)
           | _ => Raise missing_run
           end
  end.

(** Everything written while loading the script and, if it got that
    far, while [run] ran: up to the normal end or to the failure. *)
Definition produced (code_str : string) (params : V) : list (stream * string) :=
  let b := py_exec code_str (sandbox params) in
  writes b ++
  match ending b with
  | Raise _ => []
  | Return ns =>
      if run_missing ns then []
      else match ns !! "run" with
           | Some (Obj f) => writes (py_call f params)
           | _ => []
           end
  end.

(** The namespace in the words of the specification: the names that
    resolve are exactly the safe built-ins and [params]. *)
Definition exposes_exactly_safe_and_params (params : V) : Prop :=
  forall name,
    is_Some (resolve (sandbox params) name)
    <-> name ∈ SAFE_BUILTINS \/ name = "params".

End WithHost.

Arguments BuiltinsDict {V} d.
Arguments Obj {V} v.
Arguments MkResult {V} r_success r_data r_error r_stdout r_stderr.
Arguments r_success {V} e.
Arguments r_data {V} e.
Arguments r_error {V} e.
Arguments r_stdout {V} e.
Arguments r_stderr {V} e.

(** [sub] occurs in [s]. *)
Definition contains (sub s : string) : Prop :=
  exists before after, s = before +:+ sub +:+ after.


End Runner.

(** ** Vocabulary of the statements

    Predicates and functions in which the properties of [validate_code]
    are phrased. *)
Module Shape.
Import Ast Validator.
Local Open Scope list_scope.

(** The root component of a dotted name: the text before the first dot. *)
Fixpoint root_component (s : string) : string :=
  match s with
  | EmptyString => EmptyString
  | String c rest =>
      if Ascii.eqb c "." then EmptyString else String c (root_component rest)
  end.

(** What the import check reports for the names of one import statement. *)
Definition import_flags (names : list alias) : list violation :=
  flat_map
    (fun a =>
       let r := root_component (alias_name a) in
       if mem r ALLOWED_IMPORTS then [] else [ForbiddenImport r])
    names.

(** A top-level definition of [run]. *)
Definition is_run_def (n : node) : bool :=
  match n with
  | FunctionDef name _ _ _ _ _ => String.eqb name "run"
  | _ => false
  end.

(** A definition of [run] whose list of positional parameters
    ([args.args]) is exactly [params]. *)
Definition is_run_params (n : node) : bool :=
  match n with
  | FunctionDef name a _ _ _ _ =>
      String.eqb name "run"
      && match map arg_arg (arguments_args a) with
         | [p] => String.eqb p "params"
         | _ => false
         end
  | _ => false
  end.

(** An import statement that the import check accepts. *)
Definition is_allowed_import (n : node) : bool :=
  match n with
  | Import names | ImportFrom _ names _ =>
      match import_flags names with [] => true | _ => false end
  | _ => false
  end.

(** The violations of one top-level statement. *)
Definition statement_flags (n : node) : list violation :=
  match n with
  | Import names | ImportFrom _ names _ => import_flags names
  | FunctionDef name a _ _ _ _ =>
      if String.eqb name "run" then
        if is_run_params n then [] else [RunSignature]
      else [ForbiddenFunction name]
  | _ => [ForbiddenStatement (type_name n)]
  end.


(** The shape the structure check accepts: allowed imports and
    [run(params)] definitions in any order, at least one definition. *)
Definition imports_and_runs (body : list node) : Prop :=
  Forall (fun n => is_allowed_import n = true \/ is_run_params n = true) body
  /\ Exists (fun n => is_run_def n = true) body.

(** The violation the deep scan reports at one object of the tree. *)
Definition deep_flags (o : obj) : list violation :=
  match o with
  | ONode (Call (Name id _) _ _) =>
      if mem id FORBIDDEN_CALLS then [ForbiddenCall id] else []
  | ONode (Call (Attribute _ attr _) _ _) =>
      if mem attr FORBIDDEN_ATTRS then [ForbiddenAttribute attr] else []
  | _ => []
  end.

(** [flagged o v]: [o] is a call whose callee is a forbidden bare name or
    an attribute access with a forbidden attribute name, and [v] names it. *)
Inductive flagged : obj -> violation -> Prop :=
| flagged_call id ctx args keywords :
    id ∈ FORBIDDEN_CALLS ->
    flagged (ONode (Call (Name id ctx) args keywords)) (ForbiddenCall id)
| flagged_attribute value attr ctx args keywords :
    attr ∈ FORBIDDEN_ATTRS ->
    flagged (ONode (Call (Attribute value attr ctx) args keywords))
            (ForbiddenAttribute attr).

(** [inside root o]: [o] is [root] or lies below it, at any depth. *)
Inductive inside : obj -> obj -> Prop :=
| inside_here root : inside root root
| inside_child root c o :
    In c (iter_child_nodes root) -> inside c o -> inside root o.



End Shape.

(** ** Sample scripts

    Sources used in examples, with the trees [ast.parse] gives for them
    and the behaviour the interpreter has on them. *)
Module Samples.
Import Ast Validator Runner.
Local Open Scope list_scope.

Definition Load : node := Other "Load" [].
Definition Store : node := Other "Store" [].

(** The parameter list [(params)]. *)
Definition params_only : arguments :=
  Arguments [] [Arg "params" None] None [] [] None [].

(** [def run(params): return params] *)
Definition src_identity : string := "def run(params): return params".
Definition def_identity : node :=
  FunctionDef "run" params_only [Other "Return" [Name "params" Load]] [] None [].

(** [import os] and [import math] *)
Definition src_import_os : string := "import os".
Definition src_import_math : string := "import math".

(** [from math import sqrt], then the identity [run]. *)
Definition src_from_math : string :=
  "from math import sqrt" +:+ newline +:+ src_identity.
Definition tree_from_math : Module :=
  MkModule [ImportFrom (Some "math") [Alias "sqrt" None] 0; def_identity].

(** [from os import re], then the identity [run]. *)
Definition tree_from_os : Module :=
  MkModule [ImportFrom (Some "os") [Alias "re" None] 0; def_identity].

(** The identity [run], then [import math]. *)
Definition src_run_then_import : string :=
  src_identity +:+ newline +:+ src_import_math.
Definition tree_run_then_import : Module :=
  MkModule [def_identity; Import [Alias "math" None]].

(** [run] and [helper] at top level. *)
Definition tree_run_and_helper : Module :=
  MkModule [def_identity;
            FunctionDef "helper" (Arguments [] [] None [] [] None [])
                        [Other "Pass" []] [] None []].

(** [def run(params): return [eval(x) for x in params]] *)
Definition tree_eval_in_comprehension : Module :=
  MkModule
    [FunctionDef "run" params_only
       [Other "Return"
          [Other "ListComp"
             [Call (Name "eval" Load) [Name "x" Load] [];
              Other "comprehension" [Name "x" Store; Name "params" Load]]]]
       [] None []].

(** [def run(params, flag=os.system('id')): return flag]: a forbidden
    call in a default-argument expression. *)
Definition tree_call_in_default : Module :=
  MkModule
    [FunctionDef "run"
       (Arguments [] [Arg "params" None; Arg "flag" None] None [] [] None
          [Call (Attribute (Name "os" Load) "system" Load)
                [Other "Constant" []] []])
       [Other "Return" [Name "flag" Load]] [] None []].

(** [def run(params): f = params.system; return f]: the attribute is
    read, not called. *)
Definition tree_attribute_read : Module :=
  MkModule
    [FunctionDef "run" params_only
       [Other "Assign" [Name "f" Store;
                        Attribute (Name "params" Load) "system" Load];
        Other "Return" [Name "f" Load]]
       [] None []].

(** An unterminated definition. *)
Definition src_broken : string := "def run(params".
Definition broken_syntax : exn :=
  MkExn "SyntaxError" ["Exception"; "BaseException"; "object"]
        "'(' was never closed (<unknown>, line 1)" [].

(** [ast.parse] on the sample sources; any other text is treated as
    malformed. *)
Definition table_parse (s : string) : result Module :=
  if String.eqb s EmptyString then Return (MkModule [])
  else if String.eqb s src_identity then Return (MkModule [def_identity])
  else if String.eqb s src_import_os then Return (MkModule [Import [Alias "os" None]])
  else if String.eqb s src_import_math then Return (MkModule [Import [Alias "math" None]])
  else if String.eqb s src_from_math then Return tree_from_math
  else if String.eqb s src_run_then_import then Return tree_run_then_import
  else Raise broken_syntax.

(** Values of the sample interpreter. *)
Inductive value : Type :=
| VNone
| VNum (n : nat)
| VBuiltin (name : string)
| VFunction (name : string).

(** A host whose [builtins] module has the safe names and some more. *)
Definition host_builtins : gmap string value :=
  list_to_map
    (map (fun n => (n, VBuiltin n))
         (elements SAFE_BUILTINS ++ ["open"; "eval"; "exec"; "compile"; "input"])).

(** [def run(params): print('hi'); raise ValueError('boom')] *)
Definition src_hi_boom : string :=
  "def run(params): print('hi'); raise ValueError('boom')".
Definition boom : exn :=
  MkExn "ValueError" ["Exception"; "BaseException"; "object"] "boom"
        ["  File <string>, line 1, in run" +:+ newline].







End Samples.

(** ** The command-line entry points

    The [__main__] blocks of validator.py and runner.py: they read the
    standard input, print one JSON document and end normally, or through
    [sys.exit], or with an exception nothing catches. *)
Module Harness.
Import Ast Validator Runner.
Local Open Scope list_scope.

(** The exception [sys.exit(code)] raises. *)
Definition sys_exit (code : string) : exn :=
  MkExn "SystemExit" ["BaseException"; "object"] code [].

(** Statements of a script that prints documents of type [D]: they
    extend the list of printed documents and return or raise. *)
Definition io (D A : Type) : Type := list D -> list D * result A.

Definition io_lift {D A} (r : result A) : io D A := fun out => (out, r).
Definition io_raise {D A} (e : exn) : io D A := fun out => (out, Raise e).
Definition io_print {D} (d : D) : io D unit := fun out => (out ++ [d], Return tt).
Definition io_bind {D A B} (m : io D A) (k : A -> io D B) : io D B :=
  fun out => match m out with
             | (out', Return a) => k a out'
             | (out', Raise e) => (out', Raise e)
             end.

Notation "x <~ m ;; k" := (io_bind m (fun x => k))
  (at level 100, m at next level, right associativity).

(** [try: body except ...: ...]; [handlers e] is the body of the first
    clause that matches [e], if one does. *)
Definition io_try {D} (body : io D unit) (handlers : exn -> option (io D unit))
  : io D unit :=
  fun out => match body out with
             | (out', Raise e) =>
                 match handlers e with
                 | Some h => h out'
                 | None => (out', Raise e)
                 end
             | r => r
             end.

(** *** validator.py, lines 112-127 *)

(** The dictionary the validator prints. *)
Record validator_doc : Type := MkDoc {
  doc_valid : bool;
  doc_errors : list string
}.

Section ValidatorMain.

Variable parse : string -> result Module.

(** [list(ALLOWED_IMPORTS)], as in [message]. *)
Variable listing : list string.

(** [not s.strip()]: the text has nothing but white space. *)
Variable blank : string -> bool.

(** [stdin_read] is what [sys.stdin.read()] does: it returns the text or
    raises. *)
Definition validator_main (stdin_read : result string)
  : list validator_doc * result unit :=
  io_try
    (code_input <~ io_lift stdin_read ;;
     if blank code_input then
       _ <~ io_print (MkDoc false ["Empty code input"]) ;;
       io_raise (sys_exit "0")
     else
       result <~ io_lift (validate_code parse code_input) ;;
       io_print (MkDoc (valid result) (map (message listing) (errors result))))
    (fun e =>
       if isinstance_exn e "Exception" then
         Some (io_print (MkDoc false ["Validator System Error: " +:+ exn_text e]))
       else None)
    [].

End ValidatorMain.

(** *** runner.py, lines 132-159 *)

Section RunnerMain.

Variable V : Type.
Variable PyNone : V.
Variable builtins : gmap string V.
Variable py_exec : string -> gmap string (entry V) -> behaviour (gmap string (entry V)).
Variable py_callable : V -> bool.
Variable py_call : V -> V -> behaviour V.
Variable raise_site : list string.

(** [json.loads(s)]: the decoded value, or the exception raised. *)
Variable json_loads : string -> result V.

(** [request.get(key)]: the value under [key] if there is one; raises
    when [request] has no [get] (it is not a dictionary). *)
Variable dict_get : V -> string -> result (option V).

(** The empty dictionary [{}]. *)
Variable empty_dict : V.

(** The truth value of an object, as [not x] tests it. *)
Variable truthy : V -> bool.

(** The text of an object that is a [str]. *)
Variable as_str : V -> option string.

(** The exception [json.dumps(result)] raises when the [data] of the
    result cannot be serialised. *)
Variable dumps_failure : execution_result V -> option exn.

(** The rendered call site of line 108, where [exec] raises. *)
Variable exec_site : list string.

(** The dictionary the runner prints: an error report built in
    [__main__], or the result of [execute_task]. *)
Inductive runner_doc : Type :=
| ErrorDoc (error : string)
| ResultDoc (r : execution_result V).

(** What [exec] raises when its first argument is not source text. *)
Definition exec_type_error : exn :=
  MkExn "TypeError" ["Exception"; "BaseException"; "object"]
        "exec() arg 1 must be a string, bytes or code object" exec_site.

(** [execute_task(code, params)] for the decoded [code], which need not
    be a [str]; when it is not, [exec] raises at once. *)
Definition run_task (code params : V) : result (execution_result V) :=
  match as_str code with
  | Some code_str =>
      execute_task V PyNone builtins py_exec py_callable py_call raise_site
                   code_str params
  | None =>
      execute_task V PyNone builtins
                   (fun _ _ => MkBehaviour [] (Raise exec_type_error))
                   py_callable py_call raise_site EmptyString params
  end.

Definition runner_main (stdin_read : result string)
  : list runner_doc * result unit :=
  io_try
    (input_str <~ io_lift stdin_read ;;
     if String.eqb input_str EmptyString then
       _ <~ io_print (ErrorDoc "No input provided") ;;
       io_raise (sys_exit "1")
     else
       request <~ io_lift (json_loads input_str) ;;
       code <~ io_lift (dict_get request "code") ;;
       params <~ io_lift (dict_get request "params") ;;
       let code := default PyNone code in
       let params := default empty_dict params in
       if negb (truthy code) then
         _ <~ io_print (ErrorDoc "No code provided") ;;
         io_raise (sys_exit "1")
       else
         result <~ io_lift (run_task code params) ;;
         match dumps_failure result with
         | Some e => io_raise e
         | None => io_print (ResultDoc result)
         end)
    (fun e =>
       if isinstance_exn e "JSONDecodeError" then
         Some (io_print (ErrorDoc "Invalid JSON input"))
       else if isinstance_exn e "Exception" then
         Some (io_print (ErrorDoc ("Runner System Error: " +:+ exn_text e)))
       else None)
    [].

End RunnerMain.

Arguments ErrorDoc {V} error.
Arguments ResultDoc {V} r.

End Harness.

(** ** scripts/automate_mac_permissions.py *)
Module MacPermissions.
Local Open Scope list_scope.

Definition double_quote : string := String (ascii_of_nat 34) EmptyString.
Definition backslash : string := String (ascii_of_nat 92) EmptyString.
Definition newline : string := String (ascii_of_nat 10) EmptyString.

(** [sub in s] *)
Fixpoint occurs (sub s : string) : bool :=
  String.prefix sub s
  || match s with
     | EmptyString => false
     | String _ rest => occurs sub rest
     end.

(** What the script does to the machine, in order. *)
Inductive event : Type :=
| Printed (text : string)
| Shell (cmd : string)
| Osascript (script : string).

(** The statuses [check_accessibility_permission] reports. *)
Definition granted : string := "已授权".
Definition denied : string := "已拒绝".
Definition unset : string := "未设置".

(** Line 12-13: the query for the rows of one application. *)
Definition check_cmd (app_name : string) : string :=
  "sqlite3 ~/Library/Application" +:+ backslash
    +:+ " Support/com.apple.TCC/TCC.db " +:+ backslash +:+ newline
    +:+ "        " +:+ double_quote
    +:+ "SELECT service, client, allowed FROM access WHERE service='kTCCServiceAccessibility' AND client LIKE '%"
    +:+ app_name +:+ "%'" +:+ double_quote +:+ " 2>/dev/null".

(** Lines 28-31: the AppleScript that touches one application. *)
Definition request_script (app_name : string) : string :=
  "tell application " +:+ double_quote +:+ app_name +:+ double_quote
    +:+ " to activate" +:+ newline
    +:+ "delay 1" +:+ newline
    +:+ "tell application " +:+ double_quote +:+ "System Events" +:+ double_quote
    +:+ " to keystroke " +:+ double_quote +:+ " " +:+ double_quote +:+ newline.

Section WithSystem.

(** The state of the machine. *)
Variable W : Type.

(** [subprocess.run(cmd, shell=True, capture_output=True, text=True)]:
    the captured standard output, or the exception raised. *)
Variable run_shell : string -> W -> W * result string.

(** [subprocess.run(['osascript', '-e', script], timeout=10)] *)
Variable run_osascript : string -> W -> W * result unit.

(** Statements of the script: they change the machine, extend the
    record of what was done, and return or raise. *)
Definition sys (A : Type) : Type := W * list event -> (W * list event) * result A.

Definition sys_ret {A} (a : A) : sys A := fun st => (st, Return a).
Definition sys_bind {A B} (m : sys A) (k : A -> sys B) : sys B :=
  fun st => match m st with
            | (st', Return a) => k a st'
            | (st', Raise e) => (st', Raise e)
            end.

Notation "x <~~ m ;; k" := (sys_bind m (fun x => k))
  (at level 100, m at next level, right associativity).

Definition print (text : string) : sys unit :=
  fun '(w, done) => ((w, done ++ [Printed text]), Return tt).

Definition shell (cmd : string) : sys string :=
  fun '(w, done) =>
    let '(w', r) := run_shell cmd w in ((w', done ++ [Shell cmd]), r).

Definition osascript (script : string) : sys unit :=
  fun '(w, done) =>
    let '(w', r) := run_osascript script w in ((w', done ++ [Osascript script]), r).

(** [try: body except Exception as e: handler] *)
Definition sys_try {A} (body : sys A) (handler : exn -> sys A) : sys A :=
  fun st => match body st with
            | (st', Raise e) =>
                if isinstance_exn e "Exception" then handler e st'
                else (st', Raise e)
            | r => r
            end.

(** Lines 8-23. *)
Definition check_accessibility_permission (app_name : string)
  : sys (bool * string) :=
  sys_try
    (stdout <~~ shell (check_cmd app_name) ;;
     if occurs "|1" stdout then sys_ret (true, granted)
     else if occurs "|0" stdout then sys_ret (false, denied)
     else sys_ret (false, unset))
    (fun e => sys_ret (false, "检查失败: " +:+ exn_text e)).

(** Lines 25-35. *)
Definition request_accessibility_permission (app_name : string)
  : sys (bool * string) :=
  sys_try
    (_ <~~ osascript (request_script app_name) ;;
     sys_ret (true, "已弹出权限请求对话框，请手动确认。"))
    (fun e => sys_ret (false, "请求失败: " +:+ exn_text e)).

(** Body of the loop of [main] (lines 42-52). *)
Definition check_app (app : string) : sys unit :=
  r <~~ check_accessibility_permission app ;;
  let '(has_perm, status) := r in
  _ <~~ print (newline +:+ "[应用查看] " +:+ app +:+ ": " +:+ status) ;;
  if negb has_perm && String.eqb status unset then
    _ <~~ print ("  ⚠️  " +:+ app +:+ " 未设置权限，正在尝试请求...") ;;
    q <~~ request_accessibility_permission app ;;
    let '(success, msg) := q in
    print ("  📢 " +:+ msg)
  else if negb has_perm then
    print "  ❌ 权限被拒绝，请前往[系统设置 > 隐私与安全性 > 辅助功能]手动添加。"
  else
    print "  ✅ 权限正常".

Fixpoint sys_for (apps : list string) (body : string -> sys unit) : sys unit :=
  match apps with
  | [] => sys_ret tt
  | app :: rest => _ <~~ body app ;; sys_for rest body
  end.

Definition apps_to_check : list string := ["Terminal"; "iTerm"; "Python"; "WeChat"].

(** Lines 37-54. *)
Definition main : sys unit :=
  _ <~~ print "🔍 正在检查 macOS 辅助功能权限..." ;;
  _ <~~ sys_for apps_to_check check_app ;;
  print (newline +:+ "🛠️  权限检查完成。如有问题，请根据提示操作。").

End WithSystem.

(** The shell commands and the AppleScripts of a record, in order. *)
Fixpoint commands (done : list event) : list string :=
  match done with
  | [] => []
  | Shell cmd :: rest => cmd :: commands rest
  | _ :: rest => commands rest
  end.

Fixpoint scripts (done : list event) : list string :=
  match done with
  | [] => []
  | Osascript script :: rest => script :: scripts rest
  | _ :: rest => scripts rest
  end.

End MacPermissions.

(** ** Further vocabulary *)
Module Order.
Import Ast.
Local Open Scope list_scope.

(** The objects [k] levels below the objects of [q], from left to
    right: [q] itself for [k = 0], their children for [k = 1], ... *)
Fixpoint generation (k : nat) (q : list obj) : list obj :=
  match k with
  | O => q
  | S k' => generation k' (flat_map iter_child_nodes q)
  end.

(** The first [n] generations, one after the other. *)
Definition generations (n : nat) (q : list obj) : list obj :=
  flat_map (fun k => generation k q) (seq 0 n).

End Order.

(** ** Sample requests and machines *)
Module MoreSamples.
Import Ast Validator Runner Harness Samples.
Local Open Scope list_scope.

(** A parser that also refuses a source with a null byte, with a
    [ValueError]. *)
Definition src_null_byte : string :=
  "x = 1" +:+ String (ascii_of_nat 0) EmptyString.
Definition null_byte_error : exn :=
  MkExn "ValueError" ["Exception"; "BaseException"; "object"]
        "source code string cannot contain null bytes" [].
Definition strict_parse (s : string) : result Module :=
  if String.eqb s src_null_byte then Raise null_byte_error else table_parse s.

(** White space of the ASCII range, for [strip]. *)
Definition is_space (c : ascii) : bool :=
  let n := nat_of_ascii c in
  (Nat.leb 9 n && Nat.leb n 13) || (Nat.leb 28 n && Nat.leb n 32).
Fixpoint all_spaces (s : string) : bool :=
  match s with
  | EmptyString => true
  | String c rest => is_space c && all_spaces rest
  end.

(** Decoded JSON values and the functions a script defines. *)
Inductive jvalue : Type :=
| JNone
| JNum (n : nat)
| JStr (s : string)
| JList (l : list jvalue)
| JDict (d : list (string * jvalue))
| JFunction (name : string).

Definition quoted (s : string) : string :=
  MacPermissions.double_quote +:+ s +:+ MacPermissions.double_quote.

(** [{"code": "def run(params): return params"}] *)
Definition request_identity : string :=
  "{" +:+ quoted "code" +:+ ": " +:+ quoted src_identity +:+ "}".
(** [{"code": "def run(params): print('hi'); raise ValueError('boom')",
     "params": 7}] *)
Definition request_hi_boom : string :=
  "{" +:+ quoted "code" +:+ ": " +:+ quoted src_hi_boom +:+ ", "
      +:+ quoted "params" +:+ ": 7}".
(** [{"code": 5}], [{"params": 7}], [[1]] and a text that is not JSON. *)
Definition request_number_code : string := "{" +:+ quoted "code" +:+ ": 5}".
Definition request_no_code : string := "{" +:+ quoted "params" +:+ ": 7}".
Definition request_list : string := "[1]".
Definition request_garbage : string := "{code".

Definition json_decode_error : exn :=
  MkExn "JSONDecodeError" ["ValueError"; "Exception"; "BaseException"; "object"]
        "Expecting property name enclosed in double quotes: line 1 column 2 (char 1)"
        [].
Definition no_get : exn :=
  MkExn "AttributeError" ["Exception"; "BaseException"; "object"]
        "'list' object has no attribute 'get'" [].

Definition j_loads (s : string) : result jvalue :=
  if String.eqb s request_identity then Return (JDict [("code", JStr src_identity)])
  else if String.eqb s request_hi_boom then
    Return (JDict [("code", JStr src_hi_boom); ("params", JNum 7)])
  else if String.eqb s request_number_code then Return (JDict [("code", JNum 5)])
  else if String.eqb s request_no_code then Return (JDict [("params", JNum 7)])
  else if String.eqb s request_list then Return (JList [JNum 1])
  else Raise json_decode_error.

Fixpoint assoc (d : list (string * jvalue)) (key : string) : option jvalue :=
  match d with
  | [] => None
  | (k, v) :: rest => if String.eqb k key then Some v else assoc rest key
  end.

Definition j_get (request : jvalue) (key : string) : result (option jvalue) :=
  match request with
  | JDict d => Return (assoc d key)
  | _ => Raise no_get
  end.

Definition j_truthy (v : jvalue) : bool :=
  match v with
  | JNone => false
  | JNum n => negb (Nat.eqb n 0)
  | JStr s => negb (String.eqb s EmptyString)
  | JList l => match l with [] => false | _ => true end
  | JDict d => match d with [] => false | _ => true end
  | JFunction _ => true
  end.

Definition j_as_str (v : jvalue) : option string :=
  match v with JStr s => Some s | _ => None end.

Definition j_exec (code : string) (ns : gmap string (entry jvalue))
  : behaviour (gmap string (entry jvalue)) :=
  if String.eqb code src_hi_boom then
    MkBehaviour [] (Return (<["run" := Obj (JFunction "hi_boom")]> ns))
  else if String.eqb code src_identity then
    MkBehaviour [] (Return (<["run" := Obj (JFunction "identity")]> ns))
  else MkBehaviour [] (Raise broken_syntax).

Definition j_callable (v : jvalue) : bool :=
  match v with JFunction _ => true | _ => false end.

Definition j_call (f x : jvalue) : behaviour jvalue :=
  match f with
  | JFunction "hi_boom" => MkBehaviour [(Stdout, "hi" +:+ Runner.newline)] (Raise boom)
  | _ => MkBehaviour [] (Return x)
  end.

Definition not_serializable : exn :=
  MkExn "TypeError" ["Exception"; "BaseException"; "object"]
        "Object of type function is not JSON serializable" [].

Definition j_dumps_failure (r : execution_result jvalue) : option exn :=
  match r_data r with
  | JFunction _ => Some not_serializable
  | _ => None
  end.

Definition j_builtins : gmap string jvalue := ∅.

Definition j_main (stdin_read : result string)
  : list (runner_doc jvalue) * result unit :=
  runner_main jvalue JNone j_builtins j_exec j_callable j_call []
              j_loads j_get (JDict []) j_truthy j_as_str j_dumps_failure []
              stdin_read.

(** A machine on which Terminal is granted, iTerm denied and nothing is
    recorded for the other applications; its state counts the commands
    run. *)
Definition mac_shell (cmd : string) (w : nat) : nat * result string :=
  if String.eqb cmd (MacPermissions.check_cmd "Terminal") then
    (S w, Return "kTCCServiceAccessibility|com.apple.Terminal|1")
  else if String.eqb cmd (MacPermissions.check_cmd "iTerm") then
    (S w, Return "kTCCServiceAccessibility|com.googlecode.iterm2|0")
  else (S w, Return EmptyString).

Definition mac_osascript (script : string) (w : nat) : nat * result unit :=
  (S w, Return tt).

End MoreSamples.

(** * Properties of the validator *)
Module ValidatorFacts.
Import Ast Validator Shape.
Local Open Scope list_scope.

(** ** The structure check *)

Lemma split_root (s : string) :
  exists t, split "." s = root_component s :: t.
Proof.
  induction s as [|c rest [t IH]]; simpl.
  - now exists [].
  - destruct (Ascii.eqb c ".").
    + now exists (split "." rest).
    + rewrite IH. now exists t.
Qed.

Lemma subscript_split (s : string) :
  subscript (split "." s) 0 = Return (root_component s).
Proof. destruct (split_root s) as [t ->]. reflexivity. Qed.

Lemma import_step_flags (a : alias) (errs : list violation) :
  import_step a errs = Return (errs ++ import_flags [a]).
Proof.
  unfold import_step, import_flags. rewrite subscript_split. simpl.
  destruct (mem _ _); simpl; now rewrite ?app_nil_r.
Qed.

Lemma for_each_import (names : list alias) (errs : list violation) :
  for_each names import_step errs = Return (errs ++ import_flags names).
Proof.
  revert errs. induction names as [|a names IH]; intros errs; simpl.
  - now rewrite app_nil_r.
  - rewrite import_step_flags. simpl. rewrite IH.
    unfold import_flags. simpl. rewrite app_nil_r.
    now rewrite <- app_assoc.
Qed.

Lemma run_signature_mismatch_total (args : list string) :
  run_signature_mismatch args
  = Return (negb match args with
                 | [p] => String.eqb p "params"
                 | _ => false
                 end).
Proof.
  unfold run_signature_mismatch.
  destruct args as [|p [|q rest]]; reflexivity.
Qed.

Lemma top_level_step_flags (n : node) (errs : list violation) (seen : bool) :
  top_level_step n (errs, seen)
  = Return (errs ++ statement_flags n, seen || is_run_def n).
Proof.
  destruct n; simpl;
    rewrite ?for_each_import; simpl;
    rewrite ?orb_false_r; try reflexivity.
  rewrite run_signature_mismatch_total.
  destruct (String.eqb name "run"); simpl.
  - rewrite orb_true_r.
    destruct (map arg_arg (arguments_args args)) as [|p [|q rest]]; simpl;
      rewrite ?app_nil_r; try reflexivity.
    destruct (String.eqb p "params"); simpl; now rewrite ?app_nil_r.
  - now rewrite orb_false_r.
Qed.

Lemma for_each_top_level (body : list node) (errs : list violation) (seen : bool) :
  for_each body top_level_step (errs, seen)
  = Return (errs ++ flat_map statement_flags body,
            seen || existsb is_run_def body).
Proof.
  revert errs seen. induction body as [|n body IH]; intros errs seen;
    cbn [for_each flat_map existsb].
  - now rewrite app_nil_r, orb_false_r.
  - rewrite top_level_step_flags. cbn [bind]. rewrite IH.
    now rewrite <- app_assoc, orb_assoc.
Qed.

(** The structure check never raises, and its report is the violations
    of the statements in order, then the missing entry point. *)
Lemma structural_pass_flags (tree : Module) (errs : list violation) :
  structural_pass tree errs
  = Return (errs ++ flat_map statement_flags (mod_body tree)
              ++ if existsb is_run_def (mod_body tree) then [] else [MissingRun]).
Proof.
  unfold structural_pass. rewrite for_each_top_level. simpl.
  destruct (existsb is_run_def (mod_body tree)); simpl.
  - now rewrite app_nil_r.
  - now rewrite app_assoc.
Qed.

(** ** The tree walk *)

Definition sizes (q : list obj) : nat := list_sum (map size q).

Lemma sizes_nodes (l : list node) :
  sizes (map ONode l) = list_sum (map node_size l).
Proof. unfold sizes. now rewrite map_map. Qed.

Lemma sizes_args (l : list arg) :
  sizes (map OArg l) = list_sum (map arg_size l).
Proof. unfold sizes. now rewrite map_map. Qed.

Lemma sizes_aliases (l : list alias) : sizes (map OAlias l) = length l.
Proof.
  unfold sizes. rewrite map_map.
  induction l as [|a l IH]; simpl in *; [reflexivity|now f_equal].
Qed.

Lemma sizes_app (q1 q2 : list obj) : sizes (q1 ++ q2) = sizes q1 + sizes q2.
Proof. unfold sizes. now rewrite map_app, list_sum_app. Qed.

Lemma sizes_somes (l : list (option node)) :
  sizes (map ONode (somes l))
  = list_sum (map (fun o => match o with Some x => node_size x | None => 0 end) l).
Proof.
  induction l as [|[x|] l IH]; simpl; auto.
  change (sizes (ONode x :: map ONode (somes l))) with
    (node_size x + sizes (map ONode (somes l))).
  now rewrite IH.
Qed.

Lemma sizes_opt_node (o : option node) :
  sizes (map ONode (opt_list o))
  = match o with Some x => node_size x | None => 0 end.
Proof. destruct o; unfold sizes; simpl; lia. Qed.

Lemma sizes_opt_arg (o : option arg) :
  sizes (map OArg (opt_list o))
  = match o with Some x => arg_size x | None => 0 end.
Proof. destruct o; unfold sizes; simpl; lia. Qed.

Lemma sizes_cons (o : obj) (q : list obj) : sizes (o :: q) = size o + sizes q.
Proof. reflexivity. Qed.

(** An object counts for one, plus what lies below it. *)
Lemma size_children (o : obj) : size o = S (sizes (iter_child_nodes o)).
Proof.
  destruct o as [m|n|a|a|a];
    [| destruct n | destruct a | destruct a |];
    cbn [size iter_child_nodes node_children arguments_children arg_children
         node_size arguments_size arg_size];
    rewrite ?sizes_cons, ?sizes_app, ?sizes_somes, ?sizes_opt_node,
      ?sizes_opt_arg, ?sizes_nodes, ?sizes_aliases, ?sizes_args;
    cbn [size]; try reflexivity; unfold sizes; simpl; lia.
Qed.

Lemma size_positive (o : obj) : 0 < size o.
Proof. rewrite size_children. lia. Qed.

Lemma sizes_member (o : obj) (q : list obj) : In o q -> size o <= sizes q.
Proof.
  induction q as [|x q IH]; simpl; [tauto|].
  rewrite sizes_cons. intros [->|H]; [lia|]. specialize (IH H). lia.
Qed.


(** Every object the walk yields lies in a tree of the queue. *)
Lemma walk_loop_sound (fuel : nat) (q : list obj) (o : obj) :
  In o (walk_loop fuel q) -> exists r, In r q /\ inside r o.
Proof.
  revert q. induction fuel as [|fuel IH]; intros q; simpl; [tauto|].
  destruct q as [|n rest]; simpl; [tauto|].
  intros [<-|H].
  - exists n. split; [now left|constructor].
  - destruct (IH _ H) as (r & Hr & Hin).
    apply in_app_or in Hr as [Hr|Hr].
    + exists r. split; [now right|assumption].
    + exists n. split; [now left|]. now apply inside_child with r.
Qed.

(** With enough turns the walk yields every object of the trees of the
    queue. *)
Lemma walk_loop_complete (fuel : nat) (q : list obj) (r o : obj) :
  sizes q <= fuel -> In r q -> inside r o -> In o (walk_loop fuel q).
Proof.
  intros Hfuel Hr Hin. revert fuel q Hfuel Hr.
  induction Hin as [root|root c o Hc Hin IH]; intros fuel.
  - induction fuel as [|fuel IHf]; intros q Hfuel Hr.
    + apply sizes_member in Hr. pose proof (size_positive root). lia.
    + destruct q as [|n rest]; [destruct Hr|]. simpl.
      destruct Hr as [->|Hr]; [now left|right].
      apply IHf.
      * rewrite sizes_app. rewrite sizes_cons, (size_children n) in Hfuel. lia.
      * apply in_or_app. now left.
  - induction fuel as [|fuel IHf]; intros q Hfuel Hr.
    + apply sizes_member in Hr. pose proof (size_positive root). lia.
    + destruct q as [|n rest]; [destruct Hr|]. simpl. right.
      assert (Hq : sizes (rest ++ iter_child_nodes n) <= fuel).
      { rewrite sizes_app. rewrite sizes_cons, (size_children n) in Hfuel. lia. }
      destruct Hr as [->|Hr].
      * apply IH; [assumption|]. apply in_or_app. now right.
      * apply IHf; [assumption|]. apply in_or_app. now left.
Qed.

(** Once the turns cover the queue, more turns change nothing: the loop
    has stopped on the empty queue. *)
Lemma walk_loop_stable (fuel fuel' : nat) (q : list obj) :
  sizes q <= fuel -> sizes q <= fuel' -> walk_loop fuel q = walk_loop fuel' q.
Proof.
  revert fuel' q. induction fuel as [|fuel IH]; intros fuel' q Hq Hq'.
  - destruct q as [|n rest]; [now destruct fuel'|].
    rewrite sizes_cons in Hq. pose proof (size_positive n). lia.
  - destruct q as [|n rest]; [now destruct fuel'|].
    rewrite sizes_cons, (size_children n) in Hq, Hq'.
    destruct fuel' as [|fuel']; [lia|].
    simpl. f_equal. apply IH; rewrite sizes_app; lia.
Qed.

(** The walk yields exactly the objects of the tree. *)
Lemma walk_inside (root o : obj) : In o (walk root) <-> inside root o.
Proof.
  unfold walk. split.
  - intros H. apply walk_loop_sound in H as (r & [<-|[]] & Hin). assumption.
  - intros H. apply walk_loop_complete with root; [|now left|assumption].
    rewrite sizes_cons. unfold sizes. simpl. lia.
Qed.







(** ** The deep scan *)

Lemma deep_step_flags (errs : list violation) (o : obj) :
  deep_step errs o = errs ++ deep_flags o.
Proof.
  destruct o as [m|n|a|a|a]; simpl; rewrite ?app_nil_r; try reflexivity.
  destruct n; simpl; rewrite ?app_nil_r; try reflexivity.
  destruct n; simpl; rewrite ?app_nil_r; try reflexivity.
  - destruct (mem id FORBIDDEN_CALLS); now rewrite ?app_nil_r.
  - destruct (mem attr FORBIDDEN_ATTRS); now rewrite ?app_nil_r.
Qed.

Lemma fold_deep_step (l : list obj) (errs : list violation) :
  fold_left deep_step l errs = errs ++ flat_map deep_flags l.
Proof.
  revert errs. induction l as [|o l IH]; intros errs; simpl.
  - now rewrite app_nil_r.
  - now rewrite IH, deep_step_flags, <- app_assoc.
Qed.

Lemma deep_pass_flags (tree : Module) (errs : list violation) :
  deep_pass tree errs = errs ++ flat_map deep_flags (walk (OModule tree)).
Proof. apply fold_deep_step. Qed.

Lemma mem_true (x : string) (S : gset string) : mem x S = true <-> x ∈ S.
Proof. unfold mem. apply bool_decide_eq_true. Qed.

Lemma deep_flags_flagged (o : obj) (v : violation) :
  In v (deep_flags o) <-> flagged o v.
Proof.
  split.
  - destruct o as [m|n|a|a|a]; simpl; try tauto.
    destruct n; simpl; try tauto.
    destruct n; simpl; try tauto.
    + destruct (mem id FORBIDDEN_CALLS) eqn:E; simpl; [|tauto].
      intros [<-|[]]. constructor. now apply mem_true.
    + destruct (mem attr FORBIDDEN_ATTRS) eqn:E; simpl; [|tauto].
      intros [<-|[]]. constructor. now apply mem_true.
  - intros [id ctx args keywords H|value attr ctx args keywords H]; simpl;
      apply mem_true in H; rewrite H; now left.
Qed.

End ValidatorFacts.

Module ValidatorTheorems.
Import Ast Validator Shape Samples ValidatorFacts.
Local Open Scope list_scope.

Lemma statement_flags_nil (n : node) :
  statement_flags n = []
  <-> is_allowed_import n = true \/ is_run_params n = true.
Proof.
  destruct n; simpl; try (split; [discriminate|intros [?|?]; discriminate]).
  - destruct (import_flags names); split; auto; try discriminate.
    intros [?|?]; discriminate.
  - destruct (import_flags names); split; auto; try discriminate.
    intros [?|?]; discriminate.
  - destruct (String.eqb name "run"); simpl.
    + destruct (match map arg_arg (arguments_args args) with
                | [p] => String.eqb p "params"
                | _ => false
                end); split; auto; try discriminate.
      intros [?|?]; discriminate.
    + split; [discriminate|intros [?|?]; discriminate].
Qed.

Lemma flat_map_nil {A B} (f : A -> list B) (l : list A) :
  flat_map f l = [] <-> Forall (fun a => f a = []) l.
Proof.
  induction l as [|a l IH]; simpl.
  - split; auto.
  - split.
    + intros H. apply app_eq_nil in H as [Ha Hl]. constructor; tauto.
    + intros H. inversion H as [|? ? Ha Hl]; subst.
      rewrite Ha. simpl. now apply IH.
Qed.




Example helper_rejected :
  structural_pass tree_run_and_helper [] = Return [ForbiddenFunction "helper"].
Proof. reflexivity. Qed.

(** ** The import check *)

(** For a plain [import], each named module is checked by its root. *)
Lemma plain_import_flags (names : list alias) (errs : list violation) (seen : bool) :
  top_level_step (Import names) (errs, seen)
  = Return (errs ++ import_flags names, seen).
Proof. rewrite top_level_step_flags. simpl. now rewrite orb_false_r. Qed.

(** For [from m import x, y], the check looks at [x] and [y]; the module
    [m] plays no part in it. *)
Lemma from_import_ignores_module (m m' : option string) (names : list alias)
    (level level' : nat) (st : list violation * bool) :
  top_level_step (ImportFrom m names level) st
  = top_level_step (ImportFrom m' names level') st.
Proof. reflexivity. Qed.

Example import_os_rejected :
  validate_code table_parse src_import_os
  = Return (MkReport false [ForbiddenImport "os"; MissingRun]).
Proof. reflexivity. Qed.

Example import_math_accepted :
  validate_code table_parse src_import_math
  = Return (MkReport false [MissingRun]).
Proof. reflexivity. Qed.

(** C4: on [from math import sqrt] the import check reports the imported
    name [sqrt], although the module [math] is allowed; and on
    [from os import re] it reports nothing, although [os] is not. *)
Theorem from_import_checks_imported_names :
  validate_code table_parse src_from_math
  = Return (MkReport false [ForbiddenImport "sqrt"])
  /\ structural_pass tree_from_math [] = Return [ForbiddenImport "sqrt"]
  /\ structural_pass tree_from_os [] = Return [].
Proof. repeat split; reflexivity. Qed.

(** ** The deep scan *)

Example eval_in_comprehension_flagged :
  deep_pass tree_eval_in_comprehension [] = [ForbiddenCall "eval"].
Proof. reflexivity. Qed.

Example call_in_default_flagged :
  deep_pass tree_call_in_default [] = [ForbiddenAttribute "system"].
Proof. reflexivity. Qed.

Example attribute_read_not_flagged :
  deep_pass tree_attribute_read [] = [].
Proof. reflexivity. Qed.


(** ** The report *)

Lemma validate_code_parsed (parse : string -> result Module) (code : string)
    (tree : Module) :
  parse code = Return tree ->
  validate_code parse code
  = let errors :=
      flat_map statement_flags (mod_body tree)
        ++ (if existsb is_run_def (mod_body tree) then [] else [MissingRun])
        ++ flat_map deep_flags (walk (OModule tree)) in
    Return (MkReport (Nat.eqb (length errors) 0) errors).
Proof.
  intros H. unfold validate_code. rewrite H, structural_pass_flags.
  cbn [bind]. rewrite deep_pass_flags. simpl. now rewrite <- app_assoc.
Qed.

Lemma length_zero_nil {A} (l : list A) : Nat.eqb (length l) 0 = true <-> l = [].
Proof. destruct l; simpl; split; auto; discriminate. Qed.

(** C7: a report is valid exactly when it lists no violation. *)
Theorem valid_iff_no_errors (parse : string -> result Module) (code : string)
    (r : report) :
  validate_code parse code = Return r ->
  (valid r = true <-> errors r = []).
Proof.
  unfold validate_code. destruct (parse code) as [tree|e].
  - rewrite structural_pass_flags. cbn [bind].
    intros [= <-]. cbn [valid errors]. apply length_zero_nil.
  - destruct (isinstance_exn e "SyntaxError").
    + intros [= <-]. simpl. split; discriminate.
    + destruct (isinstance_exn e "Exception"); [|discriminate].
      intros [= <-]. simpl. split; discriminate.
Qed.

Lemma valid_iff_no_errors_witness :
  exists r, validate_code table_parse src_import_os = Return r
            /\ (valid r = true <-> errors r = []).
Proof.
  eexists. split; [reflexivity|].
  apply (valid_iff_no_errors table_parse src_import_os). reflexivity.
Defined.






(** C10: a source whose tree has an empty body is reported invalid with
    the missing entry point as the only violation. *)
Theorem empty_body_missing_entry_point (parse : string -> result Module)
    (code : string) :
  parse code = Return (MkModule []) ->
  validate_code parse code = Return (MkReport false [MissingRun])
  /\ kind_of MissingRun = KMissingEntryPoint.
Proof.
  intros H. split; [|reflexivity].
  rewrite (validate_code_parsed _ _ _ H). reflexivity.
Qed.

Lemma empty_body_missing_entry_point_witness :
  validate_code table_parse EmptyString = Return (MkReport false [MissingRun])
  /\ kind_of MissingRun = KMissingEntryPoint.
Proof.
  apply (empty_body_missing_entry_point table_parse EmptyString). reflexivity.
Defined.

End ValidatorTheorems.

(** * Properties of the runner *)
Module RunnerFacts.
Import Runner.
Local Open Scope list_scope.

Lemma append_assoc (a b c : string) : (a +:+ b) +:+ c = a +:+ (b +:+ c).
Proof.
  induction a as [|x a IH]; [reflexivity|].
  change (String x ((a +:+ b) +:+ c) = String x (a +:+ (b +:+ c))).
  now rewrite IH.
Qed.

Lemma append_empty_r (a : string) : a +:+ EmptyString = a.
Proof.
  induction a as [|x a IH]; [reflexivity|].
  change (String x (a +:+ EmptyString) = String x a). now rewrite IH.
Qed.

Lemma append_empty_l (a : string) : EmptyString +:+ a = a.
Proof. reflexivity. Qed.

Section WithHost.

Variable V : Type.
Variable PyNone : V.
Variable builtins : gmap string V.
Variable py_exec : string -> gmap string (entry V) -> behaviour (gmap string (entry V)).
Variable py_callable : V -> bool.
Variable py_call : V -> V -> behaviour V.
Variable raise_site : list string.

Lemma written_app (s : stream) (ws1 ws2 : list (stream * string)) :
  written s (ws1 ++ ws2) = written s ws1 +:+ written s ws2.
Proof.
  induction ws1 as [|[[] text] ws1 IH]; destruct s; simpl;
    rewrite ?IH, ?append_assoc; reflexivity.
Qed.

(** Writes accumulate in the buffers and touch no other local. *)
Lemma fold_write (ws : list (stream * string)) (st : locals V) :
  fold_left (fun s w => write V w s) ws st
  = MkLocals V (stdout_capture V st +:+ written Stdout ws)
               (stderr_capture V st +:+ written Stderr ws)
               (result_data V st) (success V st) (error_msg V st).
Proof.
  revert st. induction ws as [|[[] text] ws IH]; intros st; simpl.
  - rewrite !append_empty_r. now destruct st.
  - rewrite IH. simpl. now rewrite append_assoc.
  - rewrite IH. simpl. now rewrite append_assoc.
Qed.

Lemma missing_run_standard :
  isinstance_exn (missing_run raise_site) "Exception" = true.
Proof. reflexivity. Qed.

(** [execute_task] in one equation: the result it builds from how the
    script ends and from what the script wrote. *)
Lemma execute_task_outcome (code_str : string) (params : V) :
  execute_task V PyNone builtins py_exec py_callable py_call raise_site
               code_str params
  = let out := written Stdout
                 (produced V builtins py_exec py_callable py_call code_str params) in
    let err := written Stderr
                 (produced V builtins py_exec py_callable py_call code_str params) in
    match outcome V builtins py_exec py_callable py_call raise_site
                  code_str params with
    | Return v => Return (MkResult true v None out err)
    | Raise e =>
        if isinstance_exn e "Exception"
        then Return (MkResult false PyNone (Some (format_exc e)) out err)
        else Raise e
    end.
Proof.
  unfold execute_task, try_except_Exception, with_block, outcome, produced,
    mbind, perform, call_run.
  destruct (py_exec code_str (sandbox V builtins params)) as [ws [ns|e]];
    cbn [writes ending]; rewrite fold_write; cbn [stdout_capture stderr_capture
      result_data success error_msg].
  - destruct (run_missing V py_callable ns) eqn:Hmiss.
    + unfold raise. rewrite missing_run_standard. simpl.
      now rewrite !app_nil_r.
    + unfold run_missing in Hmiss.
      destruct (ns !! "run") as [[d|f]|]; try discriminate.
      unfold perform.
      destruct (py_call f params) as [ws' [v|e]]; cbn [writes ending];
        rewrite fold_write; simpl; rewrite ?written_app; try reflexivity.
      destruct (isinstance_exn e "Exception"); simpl; reflexivity.
  - rewrite !app_nil_r.
    destruct (isinstance_exn e "Exception"); simpl; reflexivity.
Qed.

End WithHost.

End RunnerFacts.

Module RunnerTheorems.
Import Runner Samples RunnerFacts.
Local Open Scope list_scope.

Section Namespace.

Variable V : Type.
Variable builtins : gmap string V.

Lemma fold_builtins_lookup (l : list string) (d : gmap string V) (name : string) :
  fold_left
    (fun d name =>
       match builtins !! name with
       | Some impl => <[name := impl]> d
       | None => d
       end) l d !! name
  = match (if decide (name ∈ l) then builtins !! name else None) with
    | Some impl => Some impl
    | None => d !! name
    end.
Proof.
  revert d. induction l as [|x l IH]; intros d; cbn [fold_left].
  - rewrite decide_False by apply not_elem_of_nil. reflexivity.
  - rewrite IH. destruct (decide (name ∈ l)) as [Hl|Hl].
    + rewrite decide_True by (apply elem_of_cons; now right).
      destruct (builtins !! name) as [impl|] eqn:E; [reflexivity|].
      destruct (decide (name = x)) as [<-|Hx].
      * now rewrite E.
      * destruct (builtins !! x); [|reflexivity]. now rewrite lookup_insert_ne.
    + destruct (decide (name = x)) as [->|Hx].
      * rewrite decide_True by (apply elem_of_cons; now left).
        destruct (builtins !! x) as [impl|]; [|reflexivity].
        now rewrite lookup_insert_eq.
      * rewrite decide_False by (rewrite elem_of_cons; tauto).
        destruct (builtins !! x) as [impl|]; [|reflexivity].
        now rewrite lookup_insert_ne.
Qed.

(** The dictionary of built-ins binds each safe name that the host
    defines to the host's implementation, and nothing else. *)
Lemma safe_builtins_lookup (name : string) :
  safe_builtins_dict V builtins !! name
  = if decide (name ∈ SAFE_BUILTINS) then builtins !! name else None.
Proof.
  unfold safe_builtins_dict. rewrite fold_builtins_lookup, lookup_empty.
  destruct (decide (name ∈ SAFE_BUILTINS)) as [H|H].
  - rewrite decide_True by now apply elem_of_elements.
    now destruct (builtins !! name).
  - rewrite decide_False by now rewrite elem_of_elements.
    reflexivity.
Qed.

Lemma sandbox_lookup (params : V) (name : string) :
  sandbox V builtins params !! name
  = if decide (name = "params") then Some (Obj params)
    else if decide (name = "__builtins__")
         then Some (BuiltinsDict (safe_builtins_dict V builtins))
         else None.
Proof.
  unfold sandbox.
  destruct (decide (name = "params")) as [->|Hp].
  - now rewrite lookup_insert_eq.
  - rewrite lookup_insert_ne by congruence.
    destruct (decide (name = "__builtins__")) as [->|Hb].
    + now rewrite lookup_insert_eq.
    + rewrite lookup_insert_ne by congruence. apply lookup_empty.
Qed.

Lemma sandbox_builtins (params : V) :
  sandbox V builtins params !! "__builtins__"
  = Some (BuiltinsDict (safe_builtins_dict V builtins)).
Proof.
  unfold sandbox. rewrite lookup_insert_ne by discriminate.
  apply lookup_insert_eq.
Qed.

Lemma sandbox_params (params : V) :
  sandbox V builtins params !! "params" = Some (Obj params).
Proof. unfold sandbox. apply lookup_insert_eq. Qed.

Lemma resolve_sandbox (params : V) (name : string) :
  resolve V (sandbox V builtins params) name
  = if decide (name = "params") then Some (Obj params)
    else if decide (name = "__builtins__")
         then Some (BuiltinsDict (safe_builtins_dict V builtins))
         else if decide (name ∈ SAFE_BUILTINS) then Obj <$> builtins !! name
              else None.
Proof.
  unfold resolve. rewrite sandbox_builtins, (sandbox_lookup params name).
  destruct (decide (name = "params")); [reflexivity|].
  destruct (decide (name = "__builtins__")); [reflexivity|].
  rewrite safe_builtins_lookup.
  now destruct (decide (name ∈ SAFE_BUILTINS)).
Qed.

End Namespace.

Lemma not_safe (name : string) :
  bool_decide (name ∈ SAFE_BUILTINS) = false -> name ∉ SAFE_BUILTINS.
Proof. apply bool_decide_eq_false. Qed.

Lemma is_safe (name : string) :
  bool_decide (name ∈ SAFE_BUILTINS) = true -> name ∈ SAFE_BUILTINS.
Proof. apply bool_decide_eq_true. Qed.

Lemma is_forbidden_call (name : string) :
  bool_decide (name ∈ Validator.FORBIDDEN_CALLS) = true ->
  name ∈ Validator.FORBIDDEN_CALLS.
Proof. apply bool_decide_eq_true. Qed.

Lemma not_forbidden_call (name : string) :
  bool_decide (name ∈ Validator.FORBIDDEN_CALLS) = false ->
  name ∉ Validator.FORBIDDEN_CALLS.
Proof. apply bool_decide_eq_false. Qed.

(** Of the calls the validator forbids, the sandbox still binds two. *)
Lemma forbidden_and_safe (name : string) :
  name ∈ Validator.FORBIDDEN_CALLS -> name ∈ SAFE_BUILTINS ->
  name = "__import__" \/ name = "super".
Proof.
  unfold Validator.FORBIDDEN_CALLS. rewrite elem_of_list_to_set.
  intros Hin.
  repeat (apply elem_of_cons in Hin as [->|Hin]);
    try (intros _; left; reflexivity);
    try (intros _; right; reflexivity);
    try (intros Hs; exfalso; revert Hs; apply not_safe; vm_compute; reflexivity).
  now apply not_elem_of_nil in Hin.
Qed.

(** C1: the sandbox hands the script the host's importer.  [__import__]
    is one of [SAFE_BUILTINS], so the dictionary of built-ins binds it to
    whatever the host's [builtins] module binds it to, and the name
    resolves to that object in the namespace of every call, although
    the validator lists it among the built-ins that give access to the
    host.  On a host that has it, the script reaches the real importer,
    and through it any module. *)
Theorem sandbox_binds_host_importer (V : Type) (builtins : gmap string V)
    (params : V) :
  "__import__" ∈ SAFE_BUILTINS
  /\ "__import__" ∈ Validator.FORBIDDEN_CALLS
  /\ safe_builtins_dict V builtins !! "__import__" = builtins !! "__import__"
  /\ resolve V (sandbox V builtins params) "__import__"
     = Obj <$> builtins !! "__import__"
  /\ resolve value (sandbox value host_builtins VNone) "__import__"
     = Some (Obj (VBuiltin "__import__")).
Proof.
  assert (Hsafe : "__import__" ∈ SAFE_BUILTINS)
    by (apply is_safe; vm_compute; reflexivity).
  split; [exact Hsafe|].
  split; [apply is_forbidden_call; vm_compute; reflexivity|].
  split; [|split].
  - rewrite safe_builtins_lookup. now rewrite decide_True.
  - rewrite resolve_sandbox.
    rewrite !(decide_False (P := _ = _)) by discriminate.
    now rewrite decide_True.
  - rewrite resolve_sandbox. vm_compute. reflexivity.
Qed.

(** The names that resolve in the sandbox are not exactly the safe
    built-ins and [params]: [__builtins__] resolves too; and
    [__import__], which the validator lists among the dangerous
    built-ins, is bound to the host's importer. *)
Lemma sandbox_exposes_more :
  ~ exposes_exactly_safe_and_params value host_builtins VNone
  /\ resolve value (sandbox value host_builtins VNone) "__import__"
     = Some (Obj (VBuiltin "__import__"))
  /\ "__import__" ∈ Validator.FORBIDDEN_CALLS.
Proof.
  split; [|split].
  - intros H. destruct (H "__builtins__") as [H1 _].
    destruct H1 as [H1|H1]; [|revert H1|discriminate].
    + rewrite resolve_sandbox. cbn. eauto.
    + apply not_safe. vm_compute. reflexivity.
  - rewrite resolve_sandbox. vm_compute. reflexivity.
  - apply is_forbidden_call. vm_compute. reflexivity.
Qed.

(** The layout of the namespace: the sandbox has exactly the two keys
    [__builtins__] and [params]; [params] is the caller's value and
    [__builtins__] a dictionary that binds each name of [SAFE_BUILTINS]
    the host defines to the host's implementation and binds nothing
    else.  The names that
    resolve are therefore [params], [__builtins__] and those built-ins:
    no other name resolves, [open] in particular, nor any call the
    validator forbids apart from [__import__] and [super]. *)
Theorem sandbox_namespace (V : Type) (builtins : gmap string V) (params : V) :
  let ns := sandbox V builtins params in
  (forall name,
     is_Some (ns !! name) <-> name = "__builtins__" \/ name = "params")
  /\ ns !! "params" = Some (Obj params)
  /\ ns !! "__builtins__" = Some (BuiltinsDict (safe_builtins_dict V builtins))
  /\ (forall name,
        safe_builtins_dict V builtins !! name
        = if decide (name ∈ SAFE_BUILTINS) then builtins !! name else None)
  /\ (forall name,
        is_Some (resolve V ns name)
        <-> name = "params" \/ name = "__builtins__"
            \/ (name ∈ SAFE_BUILTINS /\ is_Some (builtins !! name)))
  /\ (forall name,
        name ∈ SAFE_BUILTINS -> resolve V ns name = Obj <$> builtins !! name)
  /\ (forall name,
        name ∉ SAFE_BUILTINS -> name <> "params" -> name <> "__builtins__" ->
        resolve V ns name = None)
  /\ resolve V ns "open" = None
  /\ (forall name,
        name ∈ Validator.FORBIDDEN_CALLS ->
        name <> "__import__" -> name <> "super" ->
        resolve V ns name = None).
Proof.
  intros ns. unfold ns.
  split; [|split; [|split; [|split; [|split; [|split; [|split; [|split]]]]]]].
  - intros name. rewrite sandbox_lookup.
    destruct (decide (name = "params")); [split; eauto|].
    destruct (decide (name = "__builtins__")); [split; eauto|].
    split; [intros [x Hx]; discriminate|tauto].
  - apply sandbox_params.
  - apply sandbox_builtins.
  - apply safe_builtins_lookup.
  - intros name. rewrite resolve_sandbox.
    destruct (decide (name = "params")); [split; eauto|].
    destruct (decide (name = "__builtins__")); [split; eauto|].
    destruct (decide (name ∈ SAFE_BUILTINS)) as [Hs|Hs].
    + rewrite fmap_is_Some. tauto.
    + split; [intros [x Hx]; discriminate|tauto].
  - intros name Hs. rewrite resolve_sandbox.
    destruct (decide (name = "params")) as [->|_].
    { exfalso. revert Hs. apply not_safe. vm_compute. reflexivity. }
    destruct (decide (name = "__builtins__")) as [->|_].
    { exfalso. revert Hs. apply not_safe. vm_compute. reflexivity. }
    now rewrite decide_True.
  - intros name Hs Hp Hb. rewrite resolve_sandbox.
    now rewrite !decide_False.
  - rewrite resolve_sandbox.
    rewrite !(decide_False (P := _ = _)) by discriminate.
    rewrite decide_False; [reflexivity|].
    apply not_safe. vm_compute. reflexivity.
  - intros name Hf Hi Hsup. rewrite resolve_sandbox.
    destruct (decide (name = "params")) as [->|_].
    { exfalso. revert Hf. apply not_forbidden_call. vm_compute. reflexivity. }
    destruct (decide (name = "__builtins__")) as [->|_].
    { exfalso. revert Hf. apply not_forbidden_call. vm_compute. reflexivity. }
    destruct (decide (name ∈ SAFE_BUILTINS)) as [Hs|Hs]; [|reflexivity].
    destruct (forbidden_and_safe name Hf Hs); contradiction.
Qed.

(** ** The result of [execute_task] *)







End RunnerTheorems.

(** * Further properties of the validator *)
Module ValidatorExtras.
Import Ast Validator Shape Order Samples ValidatorFacts ValidatorTheorems.
Local Open Scope list_scope.

(** ** The order of the walk *)

Lemma generation_nil (k : nat) : generation k [] = [].
Proof. induction k; simpl; auto. Qed.

Lemma generations_nil (n : nat) : generations n [] = [].
Proof.
  unfold generations. induction (seq 0 n) as [|k l IH]; simpl; [reflexivity|].
  now rewrite generation_nil, IH.
Qed.

Lemma generations_succ (n : nat) (q : list obj) :
  generations (S n) q = q ++ generations n (flat_map iter_child_nodes q).
Proof.
  unfold generations. cbn [seq flat_map generation]. f_equal.
  rewrite <- seq_shift, flat_map_concat_map, map_map, <- flat_map_concat_map.
  reflexivity.
Qed.

Lemma sizes_length (q : list obj) :
  sizes q = length q + sizes (flat_map iter_child_nodes q).
Proof.
  induction q as [|o q IH]; [reflexivity|].
  cbn [flat_map length]. rewrite sizes_cons, sizes_app, (size_children o), IH.
  lia.
Qed.

(** The loop hands the queue through unchanged and then goes on with
    the children of its objects. *)
Lemma walk_loop_queue (q r : list obj) (fuel : nat) :
  walk_loop (length q + fuel) (q ++ r)
  = q ++ walk_loop fuel (r ++ flat_map iter_child_nodes q).
Proof.
  revert r. induction q as [|o q IH]; intros r.
  - simpl. now rewrite app_nil_r.
  - cbn [length Nat.add app walk_loop flat_map]. f_equal.
    rewrite <- app_assoc, IH. now rewrite <- app_assoc.
Qed.

Lemma walk_loop_generations (fuel : nat) (q : list obj) :
  sizes q <= fuel -> walk_loop fuel q = generations fuel q.
Proof.
  revert q. induction fuel as [fuel IH] using lt_wf_ind. intros q Hq.
  destruct q as [|o q].
  - rewrite generations_nil. now destruct fuel.
  - destruct fuel as [|fuel].
    { rewrite sizes_cons in Hq. pose proof (size_positive o). lia. }
    rewrite generations_succ.
    pose proof (sizes_length (o :: q)) as Hlen.
    set (next := flat_map iter_child_nodes (o :: q)) in *.
    pose proof (walk_loop_queue (o :: q) [] (S fuel - length (o :: q))) as Hw.
    rewrite app_nil_r in Hw. cbn [app] in Hw. fold next in Hw.
    replace (length (o :: q) + (S fuel - length (o :: q))) with (S fuel) in Hw
      by (cbn [length] in *; lia).
    rewrite Hw. cbn [app]. do 2 f_equal.
    rewrite <- (IH fuel) by (cbn [length] in *; lia).
    apply walk_loop_stable; cbn [length] in *; lia.
Qed.

(** X1: [ast.walk] yields the tree generation by generation: the root,
    then its children from left to right, then theirs, and so on; the
    findings of the deep scan are therefore listed by nesting depth. *)
Theorem walk_is_breadth_first (tree : Module) :
  let root := OModule tree in
  walk root = generations (size root) [root]
  /\ deep_pass tree []
     = flat_map (fun k => flat_map deep_flags (generation k [root]))
                (seq 0 (size root)).
Proof.
  intros root.
  assert (H : walk root = generations (size root) [root]).
  { unfold walk. apply walk_loop_generations.
    rewrite sizes_cons. unfold sizes. simpl. lia. }
  split; [exact H|].
  rewrite (deep_pass_flags tree []). cbn [app]. fold root. rewrite H.
  unfold generations.
  induction (seq 0 (size root)) as [|k l IH]; [reflexivity|].
  cbn [flat_map]. now rewrite flat_map_app, IH.
Qed.

(** ** The report as a whole *)

Lemma no_deep_flags (root : obj) :
  flat_map deep_flags (walk root) = []
  <-> forall o v, inside root o -> ~ flagged o v.
Proof.
  rewrite flat_map_nil, List.Forall_forall. split.
  - intros H o v Ho Hv. apply walk_inside in Ho.
    apply deep_flags_flagged in Hv. rewrite (H o Ho) in Hv. destruct Hv.
  - intros H o Ho. apply walk_inside in Ho.
    destruct (deep_flags o) as [|v l] eqn:E; [reflexivity|].
    exfalso. apply (H o v Ho). apply deep_flags_flagged. rewrite E. now left.
Qed.

Lemma no_statement_flags (body : list node) :
  flat_map statement_flags body
    ++ (if existsb is_run_def body then [] else [MissingRun]) = []
  <-> imports_and_runs body.
Proof.
  unfold imports_and_runs. split.
  - intros H. apply app_eq_nil in H as [Hflags Hrun]. split.
    + apply flat_map_nil in Hflags.
      eapply List.Forall_impl; [|exact Hflags].
      intros n Hn. now apply statement_flags_nil.
    + destruct (existsb is_run_def body) eqn:E; [|discriminate].
      apply existsb_exists in E as (n & Hn & E).
      apply List.Exists_exists. now exists n.
  - intros [Hall Hex].
    assert (E : existsb is_run_def body = true).
    { apply List.Exists_exists in Hex as (n & Hn & E).
      apply existsb_exists. now exists n. }
    rewrite E, app_nil_r. apply flat_map_nil.
    eapply List.Forall_impl; [|exact Hall].
    intros n Hn. now apply statement_flags_nil.
Qed.

(** X2: a source is reported valid exactly when it parses, its top level
    consists of accepted imports and [run(params)] definitions with at
    least one definition, and no call anywhere in its tree has a
    forbidden bare name or a forbidden attribute name as callee. *)
Theorem accepted_scripts (parse : string -> result Module) (code : string) :
  (exists r, validate_code parse code = Return r /\ valid r = true)
  <-> exists tree,
        parse code = Return tree
        /\ imports_and_runs (mod_body tree)
        /\ forall o v, inside (OModule tree) o -> ~ flagged o v.
Proof.
  split.
  - intros (r & Hr & Hvalid).
    destruct (parse code) as [tree|e] eqn:Hparse.
    + exists tree. split; [reflexivity|].
      rewrite (validate_code_parsed _ _ _ Hparse) in Hr. cbv zeta in Hr.
      injection Hr as <-. cbn [valid] in Hvalid.
      apply length_zero_nil in Hvalid. rewrite app_assoc in Hvalid.
      apply app_eq_nil in Hvalid as [Hs Hd].
      split; [now apply no_statement_flags|now apply no_deep_flags].
    + unfold validate_code in Hr. rewrite Hparse in Hr.
      destruct (isinstance_exn e "SyntaxError").
      { injection Hr as <-. discriminate. }
      destruct (isinstance_exn e "Exception"); [|discriminate].
      injection Hr as <-. discriminate.
  - intros (tree & Hparse & Hshape & Hdeep).
    rewrite (validate_code_parsed _ _ _ Hparse). cbv zeta.
    apply no_statement_flags in Hshape. apply no_deep_flags in Hdeep.
    rewrite app_assoc, Hshape, Hdeep. eexists. split; reflexivity.
Qed.



Lemma statement_flag_kinds (n : node) (v : violation) :
  In v (statement_flags n) ->
  kind_of v = KForbiddenImport \/ kind_of v = KStructuralViolation.
Proof.
  destruct n; simpl;
    try (intros [<-|[]]; right; reflexivity).
  - unfold import_flags. rewrite in_flat_map. intros (a & _ & H).
    destruct (mem _ _); [destruct H|]. destruct H as [<-|[]]. now left.
  - unfold import_flags. rewrite in_flat_map. intros (a & _ & H).
    destruct (mem _ _); [destruct H|]. destruct H as [<-|[]]. now left.
  - destruct (String.eqb name "run"); simpl.
    + destruct (match map arg_arg (arguments_args args) with
                | [p] => String.eqb p "params"
                | _ => false
                end); simpl; [tauto|].
      intros [<-|[]]. now right.
    + intros [<-|[]]. now right.
Qed.

(** X4: a syntax error or parse error is never mixed with other
    findings: a report that holds one holds nothing else, is invalid,
    and comes from a source the parser refused. *)
Theorem parse_failure_stands_alone (parse : string -> result Module)
    (code : string) (r : report) (v : violation) :
  validate_code parse code = Return r ->
  In v (errors r) ->
  kind_of v = KSyntaxError \/ kind_of v = KParseError ->
  errors r = [v] /\ valid r = false /\ exists e, parse code = Raise e.
Proof.
  intros Hr Hv Hkind.
  destruct (parse code) as [tree|e] eqn:Hparse.
  - exfalso.
    rewrite (validate_code_parsed _ _ _ Hparse) in Hr. cbv zeta in Hr.
    injection Hr as <-. cbn [errors] in Hv.
    rewrite !in_app_iff in Hv. destruct Hv as [Hv|[Hv|Hv]].
    + apply in_flat_map in Hv as (n & _ & Hv).
      apply statement_flag_kinds in Hv.
      destruct Hkind, Hv; congruence.
    + destruct (existsb is_run_def (mod_body tree)); [destruct Hv|].
      destruct Hv as [<-|[]]. destruct Hkind; discriminate.
    + apply in_flat_map in Hv as (o & _ & Hv).
      apply deep_flags_flagged in Hv.
      destruct Hv; destruct Hkind; discriminate.
  - unfold validate_code in Hr. rewrite Hparse in Hr.
    destruct (isinstance_exn e "SyntaxError").
    + injection Hr as <-. destruct Hv as [<-|[]]. eauto.
    + destruct (isinstance_exn e "Exception"); [|discriminate].
      injection Hr as <-. destruct Hv as [<-|[]]. eauto.
Qed.

Lemma parse_failure_stands_alone_witness :
  exists r v,
    validate_code table_parse src_broken = Return r
    /\ errors r = [v] /\ valid r = false.
Proof.
  exists (MkReport false [SyntaxErrorMsg (exn_text broken_syntax)]),
    (SyntaxErrorMsg (exn_text broken_syntax)).
  split; [reflexivity|].
  destruct (parse_failure_stands_alone table_parse src_broken
              (MkReport false [SyntaxErrorMsg (exn_text broken_syntax)])
              (SyntaxErrorMsg (exn_text broken_syntax)))
    as (H1 & H2 & _);
    [reflexivity|now left|now left|].
  split; assumption.
Defined.

(** ** Dotted imports *)

Lemma root_component_prefix (s : string) :
  s = root_component s \/ exists rest, s = root_component s +:+ "." +:+ rest.
Proof.
  induction s as [|c s IH]; [now left|]. simpl.
  destruct (Ascii.eqb c ".") eqn:E.
  - apply Ascii.eqb_eq in E as ->. right. now exists s.
  - destruct IH as [IH|[rest IH]].
    + left. now rewrite <- IH.
    + right. exists rest.
      change (String c s = String c (root_component s +:+ "." +:+ rest)).
      now rewrite <- IH.
Qed.

Lemma root_component_no_dot (s before after : string) :
  root_component s <> before +:+ "." +:+ after.
Proof.
  revert before. induction s as [|c s IH]; intros before; simpl.
  - destruct before; discriminate.
  - destruct (Ascii.eqb c ".") eqn:E.
    + destruct before; discriminate.
    + destruct before as [|b before].
      * intros [= -> _]. now rewrite Ascii.eqb_refl in E.
      * intros [= _ H]. now apply IH in H.
Qed.

(** X5: an imported name is judged by its first dotted component alone:
    [import a.b.c] is flagged exactly when [a] is not whitelisted, and
    the name reported is [a], which holds no dot.  The [as] name plays
    no part. *)
Theorem dotted_import_judged_by_root (name : string) (asname : option string)
    (errs : list violation) :
  exists root,
    (name = root \/ exists rest, name = root +:+ "." +:+ rest)
    /\ (forall before after, root <> before +:+ "." +:+ after)
    /\ import_step (Alias name asname) errs
       = Return (if mem root ALLOWED_IMPORTS then errs
                 else errs ++ [ForbiddenImport root]).
Proof.
  exists (root_component name).
  split; [apply root_component_prefix|].
  split; [intros before after; apply root_component_no_dot|].
  unfold import_step. cbn [alias_name]. rewrite subscript_split. cbn [bind].
  now destruct (mem (root_component name) ALLOWED_IMPORTS).
Qed.

(** ** The rendered messages *)

Lemma length_append (a b : string) :
  String.length (a +:+ b) = String.length a + String.length b.
Proof.
  induction a as [|x a IH]; [reflexivity|].
  change (S (String.length (a +:+ b)) = S (String.length a + String.length b)).
  now rewrite IH.
Qed.

Lemma append_cancel_l (p a b : string) : p +:+ a = p +:+ b -> a = b.
Proof.
  induction p as [|x p IH]; [auto|].
  change (String x (p +:+ a) = String x (p +:+ b) -> a = b).
  intros [= H]. auto.
Qed.

Lemma append_cancel_r (a b c : string) : a +:+ c = b +:+ c -> a = b.
Proof.
  revert b. induction a as [|x a IH]; intros [|y b] H.
  - reflexivity.
  - apply (f_equal String.length) in H. rewrite !length_append in H.
    cbn [String.length] in H. lia.
  - apply (f_equal String.length) in H. rewrite !length_append in H.
    cbn [String.length] in H. lia.
  - change (String x (a +:+ c) = String y (b +:+ c)) in H.
    injection H as -> H. f_equal. auto.
Qed.

Lemma quote_cancel (a b rest : string) :
  quote a +:+ rest = quote b +:+ rest -> a = b.
Proof.
  unfold quote. rewrite !RunnerFacts.append_assoc. intros H.
  apply append_cancel_l in H. now apply append_cancel_r in H.
Qed.

(** X6: within one process, two different violations never render to
    the same message, so the list of strings that is printed determines
    the violations found. *)
Theorem message_injective (listing : list string) (v v' : violation) :
  message listing v = message listing v' -> v = v'.
Proof.
  destruct v, v'; unfold message; intros H; try discriminate H.
  - apply append_cancel_l in H. now subst.
  - apply append_cancel_l in H. now subst.
  - apply append_cancel_l in H. apply quote_cancel in H. now subst.
  - reflexivity.
  - apply append_cancel_l in H. apply quote_cancel in H. now subst.
  - apply append_cancel_l in H. apply append_cancel_r in H. now subst.
  - reflexivity.
  - apply append_cancel_l in H.
    rewrite <- (RunnerFacts.append_empty_r (quote id)),
            <- (RunnerFacts.append_empty_r (quote id0)) in H.
    apply quote_cancel in H. now subst.
  - apply append_cancel_l in H.
    rewrite <- (RunnerFacts.append_empty_r (quote attr)),
            <- (RunnerFacts.append_empty_r (quote attr0)) in H.
    apply quote_cancel in H. now subst.
Qed.

Lemma message_injective_witness :
  message ["math"] (ForbiddenImport "os") = message ["math"] (ForbiddenImport "os")
  /\ ForbiddenImport "os" = ForbiddenImport "os".
Proof.
  split; [reflexivity|].
  apply (message_injective ["math"]). reflexivity.
Defined.

End ValidatorExtras.

(** * Further properties of the runner *)
Module RunnerExtras.
Import Runner Samples RunnerFacts RunnerTheorems.
Local Open Scope list_scope.

Section WithHost.

Variable V : Type.
Variable PyNone : V.
Variable builtins : gmap string V.
Variable py_exec : string -> gmap string (entry V) -> behaviour (gmap string (entry V)).
Variable py_callable : V -> bool.
Variable py_call : V -> V -> behaviour V.
Variable raise_site : list string.



End WithHost.



End RunnerExtras.

(** * Properties of the command-line entry points *)
Module HarnessFacts.
Import Ast Validator Runner Shape Harness Samples MoreSamples.
Import ValidatorFacts RunnerFacts.
Local Open Scope list_scope.

(** ** validator.py *)

Lemma validate_code_returns (parse : string -> result Module) (code : string) :
  (forall s e, parse s = Raise e -> isinstance_exn e "Exception" = true) ->
  exists r,
    validate_code parse code = Return r
    /\ (valid r = true <-> errors r = []).
Proof.
  intros Hstd. unfold validate_code.
  destruct (parse code) as [tree|e] eqn:E.
  - rewrite structural_pass_flags. cbn [bind]. eexists. split; [reflexivity|].
    cbn [valid errors].
    destruct (deep_pass tree _); simpl; split; auto; discriminate.
  - destruct (isinstance_exn e "SyntaxError").
    + eexists. split; [reflexivity|]. simpl. split; discriminate.
    + rewrite (Hstd _ _ E). eexists. split; [reflexivity|].
      simpl. split; discriminate.
Qed.

Lemma map_nil_iff {A B} (f : A -> B) (l : list A) : map f l = [] <-> l = [].
Proof. destruct l; simpl; split; auto; discriminate. Qed.

(** X10: the validator's command line always prints exactly one document,
    valid exactly when it lists no error.  White space alone is answered
    with "Empty code input" and [sys.exit(0)], without validating; any
    other text is answered with the rendered report of [validate_code];
    a failure to read the input is answered with a system error.  The
    process never ends with an exception other than that [sys.exit(0)]. *)
Theorem validator_main_always_answers (parse : string -> result Module)
    (listing : list string) (blank : string -> bool)
    (stdin_read : result string) :
  (forall s e, parse s = Raise e -> isinstance_exn e "Exception" = true) ->
  (forall e, stdin_read = Raise e -> isinstance_exn e "Exception" = true) ->
  exists d,
    fst (validator_main parse listing blank stdin_read) = [d]
    /\ (doc_valid d = true <-> doc_errors d = [])
    /\ (snd (validator_main parse listing blank stdin_read)
        = if match stdin_read with
             | Return s => blank s
             | Raise _ => false
             end
          then Raise (sys_exit "0") else Return tt)
    /\ match stdin_read with
       | Return s =>
           if blank s then d = MkDoc false ["Empty code input"]
           else exists r,
                  validate_code parse s = Return r
                  /\ d = MkDoc (valid r) (map (message listing) (errors r))
       | Raise e => d = MkDoc false ["Validator System Error: " +:+ exn_text e]
       end.
Proof.
  intros Hparse Hread. unfold validator_main, io_try, io_bind, io_lift.
  destruct stdin_read as [s|e].
  - destruct (blank s).
    + eexists. cbn. repeat split; discriminate.
    + destruct (validate_code_returns parse s Hparse) as (r & Hr & Hvalid).
      rewrite Hr. cbn. eexists. split; [reflexivity|].
      split; [|split; [reflexivity|eauto]].
      cbn. now rewrite map_nil_iff.
  - rewrite (Hread e eq_refl). cbn. eexists. repeat split; discriminate.
Qed.

Lemma validator_main_always_answers_witness :
  validator_main strict_parse [] all_spaces (Return src_null_byte)
  = ([MkDoc false ["Parse Error: source code string cannot contain null bytes"]],
     Return tt)
  /\ validator_main strict_parse [] all_spaces (Return "   ")
     = ([MkDoc false ["Empty code input"]], Raise (sys_exit "0")).
Proof.
  assert (Hparse : forall s e, strict_parse s = Raise e ->
                               isinstance_exn e "Exception" = true).
  { intros s e. unfold strict_parse, table_parse.
    repeat match goal with
           | |- context [if ?b then _ else _] => destruct b; try discriminate
           end; now intros [= <-]. }
  split.
  - destruct (validator_main_always_answers strict_parse [] all_spaces
                (Return src_null_byte) Hparse)
      as (d & Hfst & _ & Hsnd & r & Hr & Hd); [discriminate|].
    rewrite (surjective_pairing (validator_main _ _ _ _)), Hfst, Hsnd, Hd.
    injection Hr as <-. reflexivity.
  - destruct (validator_main_always_answers strict_parse [] all_spaces
                (Return "   ") Hparse)
      as (d & Hfst & _ & Hsnd & Hd); [discriminate|].
    rewrite (surjective_pairing (validator_main _ _ _ _)), Hfst, Hsnd, Hd.
    reflexivity.
Defined.

(** ** runner.py *)

Section RunnerMain.

Variable V : Type.
Variable PyNone : V.
Variable builtins : gmap string V.
Variable py_exec : string -> gmap string (entry V) -> behaviour (gmap string (entry V)).
Variable py_callable : V -> bool.
Variable py_call : V -> V -> behaviour V.
Variable raise_site : list string.
Variable json_loads : string -> result V.
Variable dict_get : V -> string -> result (option V).
Variable empty_dict : V.
Variable truthy : V -> bool.
Variable as_str : V -> option string.
Variable dumps_failure : execution_result V -> option exn.
Variable exec_site : list string.

Local Abbreviation main :=
  (runner_main V PyNone builtins py_exec py_callable py_call raise_site
               json_loads dict_get empty_dict truthy as_str dumps_failure
               exec_site).
Local Abbreviation task :=
  (run_task V PyNone builtins py_exec py_callable py_call raise_site as_str
            exec_site).

(** The handlers of [__main__], applied to an exception raised before
    anything was printed. *)
Definition handled (e : exn) : list (runner_doc V) * result unit :=
  if isinstance_exn e "JSONDecodeError" then
    ([ErrorDoc "Invalid JSON input"], Return tt)
  else if isinstance_exn e "Exception" then
    ([ErrorDoc ("Runner System Error: " +:+ exn_text e)], Return tt)
  else ([], Raise e).

(** [__main__] in one equation. *)
Lemma runner_main_unfold (stdin_read : result string) :
  main stdin_read
  = match stdin_read with
    | Raise e => handled e
    | Return input_str =>
        if String.eqb input_str EmptyString then
          ([ErrorDoc "No input provided"], Raise (sys_exit "1"))
        else
          match json_loads input_str with
          | Raise e => handled e
          | Return request =>
              match dict_get request "code" with
              | Raise e => handled e
              | Return code =>
                  match dict_get request "params" with
                  | Raise e => handled e
                  | Return params =>
                      if negb (truthy (default PyNone code)) then
                        ([ErrorDoc "No code provided"], Raise (sys_exit "1"))
                      else
                        match task (default PyNone code)
                                   (default empty_dict params) with
                        | Raise e => handled e
                        | Return r =>
                            match dumps_failure r with
                            | Some e => handled e
                            | None => ([ResultDoc r], Return tt)
                            end
                        end
                  end
              end
          end
    end.
Proof.
  unfold runner_main, io_try, io_bind, io_lift, io_raise, io_print, handled.
  destruct stdin_read as [input_str|e]; cbn [app].
  2: { destruct (isinstance_exn e "JSONDecodeError"); [reflexivity|].
       destruct (isinstance_exn e "Exception"); reflexivity. }
  destruct (String.eqb input_str EmptyString); [reflexivity|].
  destruct (json_loads input_str) as [request|e].
  2: { destruct (isinstance_exn e "JSONDecodeError"); [reflexivity|].
       destruct (isinstance_exn e "Exception"); reflexivity. }
  destruct (dict_get request "code") as [code|e].
  2: { destruct (isinstance_exn e "JSONDecodeError"); [reflexivity|].
       destruct (isinstance_exn e "Exception"); reflexivity. }
  destruct (dict_get request "params") as [params|e].
  2: { destruct (isinstance_exn e "JSONDecodeError"); [reflexivity|].
       destruct (isinstance_exn e "Exception"); reflexivity. }
  cbv zeta.
  destruct (negb (truthy (default PyNone code))); [reflexivity|].
  destruct (task (default PyNone code) (default empty_dict params)) as [r|e].
  2: { destruct (isinstance_exn e "JSONDecodeError"); [reflexivity|].
       destruct (isinstance_exn e "Exception"); reflexivity. }
  destruct (dumps_failure r) as [e|]; [|reflexivity].
  destruct (isinstance_exn e "JSONDecodeError"); [reflexivity|].
  destruct (isinstance_exn e "Exception"); reflexivity.
Qed.


End RunnerMain.


(** X12: a request that cannot be served is answered without running
    anything.  Empty input and a missing or false [code] end with
    [sys.exit(1)]; text that is not JSON and a JSON value without [get]
    (not an object) are answered with an error document, and the
    process ends normally. *)
Theorem runner_main_request_errors (V : Type) (PyNone : V) (builtins : gmap string V)
    (py_exec : string -> gmap string (entry V) -> behaviour (gmap string (entry V)))
    (py_callable : V -> bool) (py_call : V -> V -> behaviour V)
    (raise_site : list string) (json_loads : string -> result V)
    (dict_get : V -> string -> result (option V)) (empty_dict : V)
    (truthy : V -> bool) (as_str : V -> option string)
    (dumps_failure : execution_result V -> option exn)
    (exec_site : list string) (input_str : string) :
  let main := runner_main V PyNone builtins py_exec py_callable py_call raise_site
                json_loads dict_get empty_dict truthy as_str dumps_failure
                exec_site in
  main (Return EmptyString)
  = ([ErrorDoc "No input provided"], Raise (sys_exit "1"))
  /\ (input_str <> EmptyString ->
      (forall e,
         json_loads input_str = Raise e ->
         isinstance_exn e "JSONDecodeError" = true ->
         main (Return input_str) = ([ErrorDoc "Invalid JSON input"], Return tt))
      /\ (forall request e,
            json_loads input_str = Return request ->
            dict_get request "code" = Raise e ->
            isinstance_exn e "JSONDecodeError" = false ->
            isinstance_exn e "Exception" = true ->
            main (Return input_str)
            = ([ErrorDoc ("Runner System Error: " +:+ exn_text e)], Return tt))
      /\ (forall request code params,
            json_loads input_str = Return request ->
            dict_get request "code" = Return code ->
            dict_get request "params" = Return params ->
            truthy (default PyNone code) = false ->
            main (Return input_str)
            = ([ErrorDoc "No code provided"], Raise (sys_exit "1")))).
Proof.
  intros main. unfold main. split.
  - now rewrite runner_main_unfold.
  - intros Hne. apply String.eqb_neq in Hne.
    split; [|split].
    + intros e Hload Hjson. rewrite runner_main_unfold, Hne, Hload.
      unfold handled. now rewrite Hjson.
    + intros request e Hload Hget Hjson Hstd.
      rewrite runner_main_unfold, Hne, Hload, Hget.
      unfold handled. now rewrite Hjson, Hstd.
    + intros request code params Hload Hcode Hparams Hfalse.
      rewrite runner_main_unfold, Hne, Hload, Hcode, Hparams, Hfalse.
      reflexivity.
Qed.

Lemma runner_main_request_errors_witness :
  j_main (Return EmptyString)
  = ([ErrorDoc "No input provided"], Raise (sys_exit "1"))
  /\ j_main (Return request_garbage) = ([ErrorDoc "Invalid JSON input"], Return tt)
  /\ j_main (Return request_list)
     = ([ErrorDoc "Runner System Error: 'list' object has no attribute 'get'"],
        Return tt)
  /\ j_main (Return request_no_code)
     = ([ErrorDoc "No code provided"], Raise (sys_exit "1")).
Proof.
  pose proof (fun input =>
                runner_main_request_errors jvalue JNone j_builtins j_exec
                  j_callable j_call [] j_loads j_get (JDict []) j_truthy
                  j_as_str j_dumps_failure [] input) as H.
  cbv zeta in H. unfold j_main. split; [|split; [|split]].
  - exact (proj1 (H EmptyString)).
  - destruct (proj2 (H request_garbage)) as (Hjson & _ & _); [discriminate|].
    apply (Hjson json_decode_error); reflexivity.
  - destruct (proj2 (H request_list)) as (_ & Hget & _); [discriminate|].
    apply (Hget (JList [JNum 1]) no_get); reflexivity.
  - destruct (proj2 (H request_no_code)) as (_ & _ & Hcode); [discriminate|].
    apply (Hcode (JDict [("params", JNum 7)]) None (Some (JNum 7)));
      reflexivity.
Defined.



(** X14: a [code] that is true but is not text (a number, a list) is
    passed on all the same; [exec] refuses it, and the request is
    answered with a failed result that carries the [TypeError], the
    process ending normally. *)
Theorem runner_main_nonstring_code (V : Type) (PyNone : V) (builtins : gmap string V)
    (py_exec : string -> gmap string (entry V) -> behaviour (gmap string (entry V)))
    (py_callable : V -> bool) (py_call : V -> V -> behaviour V)
    (raise_site : list string) (json_loads : string -> result V)
    (dict_get : V -> string -> result (option V)) (empty_dict : V)
    (truthy : V -> bool) (as_str : V -> option string)
    (dumps_failure : execution_result V -> option exn)
    (exec_site : list string) (input_str : string) (request code : V)
    (params : option V) :
  input_str <> EmptyString ->
  json_loads input_str = Return request ->
  dict_get request "code" = Return (Some code) ->
  truthy code = true ->
  as_str code = None ->
  dict_get request "params" = Return params ->
  let r := MkResult false PyNone (Some (format_exc (exec_type_error exec_site)))
                    EmptyString EmptyString in
  dumps_failure r = None ->
  runner_main V PyNone builtins py_exec py_callable py_call raise_site
              json_loads dict_get empty_dict truthy as_str dumps_failure
              exec_site (Return input_str)
  = ([ResultDoc r], Return tt).
Proof.
  intros Hne Hload Hcode Htruthy Hstr Hparams r Hd.
  apply String.eqb_neq in Hne.
  rewrite runner_main_unfold, Hne, Hload, Hcode, Hparams.
  change (default PyNone (Some code)) with code.
  rewrite Htruthy. cbn [negb].
  unfold run_task. rewrite Hstr, execute_task_outcome. cbv zeta.
  unfold outcome, produced. cbn [ending writes app written].
  replace (isinstance_exn (exec_type_error exec_site) "Exception") with true
    by reflexivity.
  fold r. now rewrite Hd.
Qed.

Lemma runner_main_nonstring_code_witness :
  j_main (Return request_number_code)
  = ([ResultDoc (MkResult false JNone (Some (format_exc (exec_type_error [])))
                          EmptyString EmptyString)],
     Return tt).
Proof.
  apply (runner_main_nonstring_code jvalue JNone j_builtins j_exec j_callable
           j_call [] j_loads j_get (JDict []) j_truthy j_as_str
           j_dumps_failure [] request_number_code
           (JDict [("code", JNum 5)]) (JNum 5) None);
    first [discriminate | reflexivity].
Defined.

End HarnessFacts.

(** * Properties of the permission script *)
Module MacFacts.
Import Runner MacPermissions MoreSamples.
Local Open Scope list_scope.

Lemma prefix_split (sub s : string) :
  String.prefix sub s = true <-> exists after, s = sub +:+ after.
Proof.
  revert s. induction sub as [|a sub IH]; intros s; simpl.
  - split; [intros _; now exists s|intros _; now destruct s].
  - destruct s as [|b s].
    + split; [discriminate|intros [after H]; discriminate].
    + simpl. destruct (ascii_dec a b) as [->|Hab].
      * rewrite IH. split; intros [after H]; exists after.
        -- change (String b s = String b (sub +:+ after)). now rewrite H.
        -- now injection H.
      * split; [discriminate|]. intros [after H]. injection H as H _.
        congruence.
Qed.

(** [occurs] decides whether the text occurs. *)
Lemma occurs_contains (sub s : string) :
  occurs sub s = true <-> contains sub s.
Proof.
  unfold contains. split.
  - induction s as [|c s IH]; cbn [occurs]; rewrite orb_true_iff.
    + intros [H|H]; [|discriminate].
      apply prefix_split in H as [after H]. now exists EmptyString, after.
    + intros [H|H].
      * apply prefix_split in H as [after H]. now exists EmptyString, after.
      * destruct (IH H) as (before & after & ->).
        now exists (String c before), after.
  - intros (before & after & ->).
    induction before as [|c before IH].
    + assert (H : String.prefix sub (sub +:+ after) = true)
        by (apply prefix_split; now exists after).
      change (EmptyString +:+ sub +:+ after) with (sub +:+ after).
      destruct (sub +:+ after); cbn [occurs]; now rewrite H.
    + change (String c before +:+ sub +:+ after)
        with (String c (before +:+ sub +:+ after)).
      cbn [occurs]. rewrite IH. apply orb_true_r.
Qed.

Section WithSystem.

Variable W : Type.
Variable run_shell : string -> W -> W * result string.
Variable run_osascript : string -> W -> W * result unit.

Local Abbreviation check := (check_accessibility_permission W run_shell).
Local Abbreviation request := (request_accessibility_permission W run_osascript).
Local Abbreviation step := (check_app W run_shell run_osascript).

(** The check in one equation. *)
Lemma check_unfold (app : string) (w : W) (done : list event) :
  check app (w, done)
  = ((fst (run_shell (check_cmd app) w), done ++ [Shell (check_cmd app)]),
     match snd (run_shell (check_cmd app) w) with
     | Return stdout =>
         Return (if occurs "|1" stdout then (true, granted)
                 else if occurs "|0" stdout then (false, denied)
                 else (false, unset))
     | Raise e =>
         if isinstance_exn e "Exception"
         then Return (false, "检查失败: " +:+ exn_text e)
         else Raise e
     end).
Proof.
  unfold check_accessibility_permission, sys_try, sys_bind, shell, sys_ret.
  destruct (run_shell (check_cmd app) w) as [w' [stdout|e]]; cbn [fst snd].
  - destruct (occurs "|1" stdout); [reflexivity|].
    destruct (occurs "|0" stdout); reflexivity.
  - destruct (isinstance_exn e "Exception"); reflexivity.
Qed.

Lemma request_unfold (app : string) (w : W) (done : list event) :
  request app (w, done)
  = ((fst (run_osascript (request_script app) w),
      done ++ [Osascript (request_script app)]),
     match snd (run_osascript (request_script app) w) with
     | Return _ => Return (true, "已弹出权限请求对话框，请手动确认。")
     | Raise e =>
         if isinstance_exn e "Exception"
         then Return (false, "请求失败: " +:+ exn_text e)
         else Raise e
     end).
Proof.
  unfold request_accessibility_permission, sys_try, sys_bind, osascript, sys_ret.
  destruct (run_osascript (request_script app) w) as [w' [[]|e]]; cbn [fst snd].
  - reflexivity.
  - destruct (isinstance_exn e "Exception"); reflexivity.
Qed.

End WithSystem.

(** X15: [check_accessibility_permission] runs the one query and
    classifies its output by substring: granted when [|1] occurs in it,
    whatever else does; denied when [|0] occurs and [|1] does not;
    unset otherwise.  An exception of the [Exception] hierarchy is
    turned into a negative answer; no such exception leaves the
    function. *)
Theorem check_classifies_by_substring (W : Type)
    (run_shell : string -> W -> W * result string)
    (app : string) (w : W) (done : list event) :
  let ran := run_shell (check_cmd app) w in
  let answer := check_accessibility_permission W run_shell app (w, done) in
  fst answer = (fst ran, done ++ [Shell (check_cmd app)])
  /\ (forall stdout,
        snd ran = Return stdout ->
        (contains "|1" stdout -> snd answer = Return (true, granted))
        /\ (~ contains "|1" stdout -> contains "|0" stdout ->
            snd answer = Return (false, denied))
        /\ (~ contains "|1" stdout -> ~ contains "|0" stdout ->
            snd answer = Return (false, unset)))
  /\ (forall e,
        snd ran = Raise e ->
        snd answer
        = if isinstance_exn e "Exception"
          then Return (false, "检查失败: " +:+ exn_text e)
          else Raise e)
  /\ (forall e, snd answer = Raise e -> isinstance_exn e "Exception" = false).
Proof.
  intros ran answer. unfold answer, ran. rewrite check_unfold. cbn [fst snd].
  split; [reflexivity|]. split; [|split].
  - intros stdout ->. repeat split.
    + intros H. apply occurs_contains in H. now rewrite H.
    + intros H1 H0. apply occurs_contains in H0.
      destruct (occurs "|1" stdout) eqn:E1.
      { apply occurs_contains in E1. contradiction. }
      now rewrite H0.
    + intros H1 H0.
      destruct (occurs "|1" stdout) eqn:E1.
      { apply occurs_contains in E1. contradiction. }
      destruct (occurs "|0" stdout) eqn:E0.
      { apply occurs_contains in E0. contradiction. }
      reflexivity.
  - intros e ->. reflexivity.
  - intros e.
    destruct (snd (run_shell (check_cmd app) w)) as [stdout|e0];
      [discriminate|].
    destruct (isinstance_exn e0 "Exception") eqn:E; [discriminate|].
    now intros [= <-].
Qed.

Lemma commands_app (a b : list event) : commands (a ++ b) = commands a ++ commands b.
Proof.
  induction a as [|[text|cmd|script] a IH]; simpl; now rewrite ?IH.
Qed.

Lemma scripts_app (a b : list event) : scripts (a ++ b) = scripts a ++ scripts b.
Proof.
  induction a as [|[text|cmd|script] a IH]; simpl; now rewrite ?IH.
Qed.

Section Steps.

Variable W : Type.
Variable run_shell : string -> W -> W * result string.
Variable run_osascript : string -> W -> W * result unit.

Lemma print_unfold (text : string) (w : W) (done : list event) :
  print W text (w, done) = ((w, done ++ [Printed text]), Return tt).
Proof. reflexivity. Qed.

(** One turn of the loop of [main], by the answer of the check. *)
Lemma check_app_cases (app : string) (w : W) (done : list event) :
  let ran := run_shell (check_cmd app) w in
  let unset_answer :=
    match snd ran with
    | Return stdout => negb (occurs "|1" stdout) && negb (occurs "|0" stdout)
    | Raise _ => false
    end in
  exists new,
    snd (fst (check_app W run_shell run_osascript app (w, done))) = done ++ new
    /\ commands new = [check_cmd app]
    /\ scripts new = (if unset_answer then [request_script app] else [])
    /\ (snd (check_app W run_shell run_osascript app (w, done)) = Return tt
        \/ exists e,
             snd (check_app W run_shell run_osascript app (w, done)) = Raise e
             /\ isinstance_exn e "Exception" = false
             /\ (snd ran = Raise e
                 \/ exists w', snd (run_osascript (request_script app) w') = Raise e)).
Proof.
  intros ran unset_answer. unfold unset_answer, ran.
  unfold check_app, sys_bind. rewrite check_unfold.
  destruct (run_shell (check_cmd app) w) as [w1 [stdout|e]]; cbn [fst snd].
  - destruct (occurs "|1" stdout); cbn [negb andb].
    { rewrite !print_unfold. cbn [fst snd].
      eexists. rewrite <- !app_assoc. split; [reflexivity|]. cbn. auto. }
    destruct (occurs "|0" stdout); cbn [negb andb].
    { replace (String.eqb denied unset) with false by reflexivity.
      rewrite !print_unfold. cbn [fst snd].
      eexists. rewrite <- !app_assoc. split; [reflexivity|]. cbn. auto. }
    replace (String.eqb unset unset) with true by reflexivity.
    rewrite !print_unfold. cbn iota beta. rewrite request_unfold.
    destruct (run_osascript (request_script app) w1) as [w2 [[]|e]] eqn:Hosa;
      cbn [fst snd].
    + rewrite print_unfold. cbn [fst snd].
      eexists. rewrite <- !app_assoc. split; [reflexivity|]. cbn. auto.
    + destruct (isinstance_exn e "Exception") eqn:Hstd.
      * rewrite print_unfold. cbn [fst snd].
        eexists. rewrite <- !app_assoc. split; [reflexivity|]. cbn. auto.
      * eexists. rewrite <- !app_assoc. split; [reflexivity|]. cbn.
        split; [reflexivity|]. split; [reflexivity|]. right. exists e.
        repeat split; auto. right. exists w1. now rewrite Hosa.
  - destruct (isinstance_exn e "Exception") eqn:Hstd.
    + replace (String.eqb ("检查失败: " +:+ exn_text e) unset) with false
        by reflexivity.
      cbn [negb andb]. rewrite !print_unfold. cbn [fst snd].
      eexists. rewrite <- !app_assoc.
      split; [reflexivity|]. cbn. auto.
    + exists [Shell (check_cmd app)]. cbn. repeat split; auto.
      right. exists e. auto.
Qed.

End Steps.

(** X16: one turn of the loop of [main] runs the query for its
    application once, and runs the AppleScript for it exactly when the
    query answered and its output holds neither [|1] nor [|0]; a check
    that failed with an exception never leads to a request.  No
    exception of the [Exception] hierarchy leaves the turn. *)
Theorem check_app_requests_iff_unset (W : Type)
    (run_shell : string -> W -> W * result string)
    (run_osascript : string -> W -> W * result unit)
    (app : string) (w : W) (done : list event) :
  let ran := run_shell (check_cmd app) w in
  let turn := check_app W run_shell run_osascript app (w, done) in
  exists new,
    snd (fst turn) = done ++ new
    /\ commands new = [check_cmd app]
    /\ (scripts new = [request_script app] \/ scripts new = [])
    /\ (scripts new = [request_script app]
        <-> exists stdout,
              snd ran = Return stdout
              /\ ~ contains "|1" stdout /\ ~ contains "|0" stdout)
    /\ (forall e, snd turn = Raise e -> isinstance_exn e "Exception" = false).
Proof.
  intros ran turn. unfold turn, ran.
  destruct (check_app_cases W run_shell run_osascript app w done)
    as (new & Hnew & Hcmd & Hscr & Hend).
  cbv zeta in Hscr.
  exists new. split; [exact Hnew|]. split; [exact Hcmd|].
  split; [|split].
  - rewrite Hscr. destruct (match snd _ with Return _ => _ | Raise _ => _ end); auto.
  - rewrite Hscr.
    destruct (snd (run_shell (check_cmd app) w)) as [stdout|e].
    + destruct (occurs "|1" stdout) eqn:E1; cbn [negb andb].
      { split; [discriminate|]. intros (s' & [= <-] & H1 & _).
        apply occurs_contains in E1. contradiction. }
      destruct (occurs "|0" stdout) eqn:E0; cbn [negb andb].
      { split; [discriminate|]. intros (s' & [= <-] & _ & H0).
        apply occurs_contains in E0. contradiction. }
      split; [|reflexivity]. intros _. exists stdout.
      split; [reflexivity|]. split; intros H; apply occurs_contains in H;
        congruence.
    + split; [discriminate|]. intros (s' & H & _). discriminate.
  - intros e He. destruct Hend as [H|(e' & H & Hstd & _)]; [congruence|].
    rewrite H in He. now injection He as <-.
Qed.

(** X17: when the commands raise nothing outside the [Exception]
    hierarchy, [main] ends normally after checking the four
    applications once each, in the order Terminal, iTerm, Python,
    WeChat, and it runs an AppleScript for no other application, at
    most once for each and in the same order. *)
Theorem main_checks_each_app_once (W : Type)
    (run_shell : string -> W -> W * result string)
    (run_osascript : string -> W -> W * result unit) (w : W) :
  (forall cmd w e,
     snd (run_shell cmd w) = Raise e -> isinstance_exn e "Exception" = true) ->
  (forall script w e,
     snd (run_osascript script w) = Raise e -> isinstance_exn e "Exception" = true) ->
  let ran := main W run_shell run_osascript (w, []) in
  snd ran = Return tt
  /\ commands (snd (fst ran)) = map check_cmd apps_to_check
  /\ exists asked,
       scripts (snd (fst ran)) = map request_script asked
       /\ sublist asked apps_to_check.
Proof.
  intros Hshell Hosa.
  assert (Hloop : forall apps w done,
            exists w' new asked,
              sys_for W apps (check_app W run_shell run_osascript) (w, done)
              = ((w', done ++ new), Return tt)
              /\ commands new = map check_cmd apps
              /\ scripts new = map request_script asked
              /\ sublist asked apps).
  { induction apps as [|app apps IH]; intros w0 done.
    - exists w0, [], []. cbn. rewrite app_nil_r. repeat split. constructor.
    - cbn [sys_for]. unfold sys_bind.
      destruct (check_app_cases W run_shell run_osascript app w0 done)
        as (new & Hnew & Hcmd & Hscr & Hend).
      cbv zeta in Hscr.
      destruct (check_app W run_shell run_osascript app (w0, done))
        as [[w1 done1] r] eqn:Hturn.
      cbn [fst snd] in Hnew, Hend. subst done1.
      destruct Hend as [->|(e & -> & Hstd & [He|[w' He]])].
      + destruct (IH w1 (done ++ new)) as (w2 & new' & asked & -> & Hc & Hs & Hsub).
        destruct (match snd (run_shell (check_cmd app) w0) with
                  | Return _ => _
                  | Raise _ => _
                  end).
        * exists w2, (new ++ new'), (app :: asked).
          rewrite app_assoc, commands_app, scripts_app, Hcmd, Hscr, Hc, Hs.
          repeat split. now constructor.
        * exists w2, (new ++ new'), asked.
          rewrite app_assoc, commands_app, scripts_app, Hcmd, Hscr, Hc, Hs.
          repeat split. now constructor.
      + apply Hshell in He. congruence.
      + apply Hosa in He. congruence. }
  intros ran. unfold ran, main, sys_bind. rewrite print_unfold.
  destruct (Hloop apps_to_check w
              ([] ++ [Printed "🔍 正在检查 macOS 辅助功能权限..."]))
    as (w' & new & asked & -> & Hc & Hs & Hsub).
  rewrite print_unfold. cbn [fst snd]. split; [reflexivity|].
  rewrite !commands_app, !scripts_app, Hc, Hs. cbn.
  rewrite !app_nil_r. split; [reflexivity|]. exists asked. auto.
Qed.

Lemma main_checks_each_app_once_witness :
  let ran := main nat mac_shell mac_osascript (0, []) in
  snd ran = Return tt
  /\ commands (snd (fst ran)) = map check_cmd apps_to_check
  /\ scripts (snd (fst ran)) = map request_script ["Python"; "WeChat"].
Proof.
  destruct (main_checks_each_app_once nat mac_shell mac_osascript 0)
    as (Hend & Hcmd & _).
  - intros cmd w e. unfold mac_shell.
    repeat match goal with
           | |- context [if ?b then _ else _] => destruct b
           end; discriminate.
  - intros script w e. discriminate.
  - split; [exact Hend|]. split; [exact Hcmd|]. vm_compute. reflexivity.
Defined.

End MacFacts.
